(** * data_gen: test-vector generation, naming, cache lookup and the
      staged producer

    A shallow embedding of [python/data_gen.py] and of
    [python/data_gen/util.py]: the two signal generators, the generator
    front end with its output naming, the channelize/synthesize stage
    factories, the cache lookup and [DataVectorProducer]. *)

From Stdlib Require Import ZArith List String Ascii Bool Lia.
From Stdlib Require Import DecimalString.
From Stdlib Require Import SpecFloat.
From Stdlib Require Import Reals Lra.
From stdpp Require Import gmap strings list.

Local Open Scope string_scope.
Local Open Scope Z_scope.

(** ** Python exceptions and results *)

(** The exception classes the modelled code can raise. *)
Inductive exn : Set :=
  | TypeError | ValueError | KeyError | IndexError | ZeroDivisionError
  | OverflowError | AttributeError | UnboundLocalError
  | FileNotFoundError | FileExistsError | NotADirectoryError
  | IsADirectoryError | NotImplementedError
  | RuntimeError | StopIteration | JSONDecodeError.


Inductive result (A : Type) : Type :=
  | Ok (a : A)
  | Raise (e : exn).
Arguments Ok {A} a.
Arguments Raise {A} e.

Definition rbind {A B} (r : result A) (k : A -> result B) : result B :=
  match r with
  | Ok a => k a
  | Raise e => Raise e
  end.

Declare Scope py_scope.
Delimit Scope py_scope with py.
Notation "x <- r ;; k" := (rbind r (fun x => k))
  (at level 100, r at next level, right associativity) : py_scope.
Local Open Scope py_scope.

Fixpoint mapM {A B} (f : A -> result B) (l : list A) : result (list B) :=
  match l with
  | [] => Ok []
  | a :: l' => b <- f a ;; bs <- mapM f l' ;; Ok (b :: bs)
  end.

(** ** Numbers *)

(** A Python [float] is an IEEE binary64 value. *)
Definition float := spec_float.
Definition prec : Z := 53.
Definition emax : Z := 1024.

Definition fadd : float -> float -> float := SFadd prec emax.
Definition fmul : float -> float -> float := SFmul prec emax.
Definition fdiv : float -> float -> float := SFdiv prec emax.

(** [float(z)] for a Python [int]; [OverflowError] past the largest double. *)
Definition float_of_Z (z : Z) : result float :=
  match binary_normalize prec emax z 0 false with
  | S754_infinity _ => Raise OverflowError
  | f => Ok f
  end.

(** The double nearest to [p/q], as Python reads a decimal literal. *)
Definition lit (p q : Z) : float :=
  fdiv (binary_normalize prec emax p 0 false)
       (binary_normalize prec emax q 0 false).

(** [int(x)]: truncation toward zero. *)
Definition int_of_float (x : float) : result Z :=
  match x with
  | S754_zero _ => Ok 0
  | S754_infinity _ => Raise OverflowError
  | S754_nan => Raise ValueError
  | S754_finite s m e =>
      let v := if 0 <=? e then Z.shiftl (Zpos m) e
               else Z.shiftr (Zpos m) (- e) in
      Ok (if s then - v else v)
  end.

(** A number as the callers pass it: an [int] or a [float]. *)
Inductive pynum : Set :=
  | PInt (z : Z)
  | PFloat (x : float).

(** [a * n] with [n] an [int]. *)
Definition num_mul_int (a : pynum) (n : Z) : result pynum :=
  match a with
  | PInt z => Ok (PInt (z * n))
  | PFloat x => y <- float_of_Z n ;; Ok (PFloat (fmul x y))
  end.

(** [int(a)]. *)
Definition py_int (a : pynum) : result Z :=
  match a with
  | PInt z => Ok z
  | PFloat x => int_of_float x
  end.

(** ** Text of numbers *)

(** [str(z)] for an [int]. *)
Definition str_of_Z (z : Z) : string := NilZero.string_of_int (Z.to_int z).

(** Three digits, zero padded, of [0 <= k < 1000]. *)
Definition pad3 (k : Z) : string :=
  let s := str_of_Z k in
  if k <? 10 then "00" +:+ s else if k <? 100 then "0" +:+ s else s.

(** The integer nearest to [m * 2^e * 1000], ties to even. *)
Definition scale3 (m : positive) (e : Z) : Z :=
  if 0 <=? e then Z.shiftl (Zpos m * 1000) e
  else
    let d := Z.shiftl 1 (- e) in
    let q := (Zpos m * 1000) / d in
    let r := (Zpos m * 1000) mod d in
    match 2 * r ?= d with
    | Lt => q
    | Eq => if Z.even q then q else q + 1
    | Gt => q + 1
    end.

(** [format(x, ".3f")] for a [float]. *)
Definition fmt3_float (x : float) : string :=
  match x with
  | S754_nan => "nan"
  | S754_infinity s => if s then "-inf" else "inf"
  | S754_zero s => if s then "-0.000" else "0.000"
  | S754_finite s m e =>
      let q := scale3 m e in
      (if s then "-" else "") +:+ str_of_Z (q / 1000) +:+ "." +:+ pad3 (q mod 1000)
  end.

(** [f"{a:.3f}"]: an [int] is converted to [float] first. *)
Definition fmt3 (a : pynum) : result string :=
  match a with
  | PInt z => x <- float_of_Z z ;; Ok (fmt3_float x)
  | PFloat x => Ok (fmt3_float x)
  end.

(** [sep.join(l)]. *)
Fixpoint join (sep : string) (l : list string) : string :=
  match l with
  | [] => ""
  | [s] => s
  | s :: l' => s +:+ sep +:+ join sep l'
  end.

(** ** numpy arrays and the sample arithmetic *)

(** The keys of [matlab_dtype_lookup]. *)
Inductive dtype : Set := float32 | float64 | complex64 | complex128.

Definition is_complex (d : dtype) : bool :=
  match d with
  | complex64 | complex128 => true
  | float32 | float64 => false
  end.

(** What numpy computes on samples: the samples [0] and [1] of an array,
    [exp_1j x] for an element of [np.exp(1j*a)] where the element of the
    float64 array [a] is [x], and [acc d s x] for an element of [sig += x]
    when [sig] has the complex dtype [d]. *)
Class SampleOps (C : Type) : Type := {
  czero : C;
  cone : C;
  exp_1j : float -> C;
  acc : dtype -> C -> C -> C
}.

(** The two ways the generators take their parallel arguments: a pair of
    scalars or a pair of lists. *)
Inductive gen_args : Set :=
  | Scalars (a b : pynum)
  | Lists (la lb : list pynum).

(** [if not hasattr(a, "__iter__"): a = [a]; b = [b]]. *)
Definition as_lists (g : gen_args) : list pynum * list pynum :=
  match g with
  | Scalars a b => ([a], [b])
  | Lists la lb => (la, lb)
  end.

Section Generators.
Context {C : Type} `{SampleOps C}.

(** [np.zeros(n, dtype=dtype)]. *)
Definition np_zeros (n : Z) : result (list C) :=
  if n <? 0 then Raise ValueError else Ok (replicate (Z.to_nat n) czero).

(** Bound of a slice of a length-[n] sequence, as Python adjusts it. *)
Definition adjust (n i : Z) : Z :=
  if i <? 0 then Z.max 0 (i + n) else Z.min i n.

Fixpoint fill_from (i lo hi : Z) (v : C) (l : list C) : list C :=
  match l with
  | [] => []
  | x :: l' =>
      (if (lo <=? i) && (i <? hi) then v else x) :: fill_from (i + 1) lo hi v l'
  end.

(** [sig[start:stop] = v]. *)
Definition slice_assign (start stop : Z) (v : C) (l : list C) : list C :=
  let n := Z.of_nat (length l) in
  fill_from 0 (adjust n start) (adjust n stop) v l.

(** The loop of [time_domain_impulse]. *)
Fixpoint impulse_loop (n : Z) (offsets widths : list pynum) (sig : list C)
  : result (list C) :=
  match offsets with
  | [] => Ok sig
  | o :: offsets' =>
      x <- num_mul_int o n ;;
      offset <- py_int x ;;
      match widths with
      | [] => Raise IndexError
      | PFloat _ :: _ => Raise TypeError
      | PInt width :: widths' =>
          impulse_loop n offsets' widths'
            (slice_assign offset (offset + width) cone sig)
      end
  end.

Definition time_domain_impulse (n : Z) (g : gen_args) (d : dtype)
  : result (list C) :=
  let '(offsets, widths) := as_lists g in
  sig <- np_zeros n ;;
  impulse_loop n offsets widths sig.

(** [n * a] with [n] an [int]. *)
Definition int_mul_num (n : Z) (a : pynum) : result pynum :=
  match a with
  | PInt z => Ok (PInt (n * z))
  | PFloat x => y <- float_of_Z n ;; Ok (PFloat (fmul y x))
  end.

(** [float(a)], the conversion Python and numpy make of a number that
    meets a [float]. *)
Definition float_of_num (a : pynum) : result float :=
  match a with
  | PInt z => float_of_Z z
  | PFloat x => Ok x
  end.

(** [k + b] with [k] an [int]. *)
Definition int_add_num (k : Z) (b : pynum) : result pynum :=
  match b with
  | PInt z => Ok (PInt (k + z))
  | PFloat x => y <- float_of_Z k ;; Ok (PFloat (fadd y x))
  end.

(** [x / n] with [x] a [float] and [n] an [int]. *)
Definition float_div_int (x : float) (n : Z) : result float :=
  y <- float_of_Z n ;;
  if n =? 0 then Raise ZeroDivisionError else Ok (fdiv x y).

(** [np.pi], and [2*np.pi]. *)
Definition np_pi : float := S754_finite false 7074237752028440 (-51).
Definition two_pi : float := fmul (binary_normalize prec emax 2 0 false) np_pi.

(** [2*np.pi*(k + bin_offset)] and [2*np.pi*(k + bin_offset)/n] for the
    bin [k], an [int]. *)
Definition scaled_bin (bin_offset : pynum) (k : Z) : result float :=
  kb <- int_add_num k bin_offset ;;
  kb <- float_of_num kb ;;
  Ok (fmul two_pi kb).

Definition coeff_of_bin (n : Z) (bin_offset : pynum) (k : Z) : result float :=
  s <- scaled_bin bin_offset k ;; float_div_int s n.

(** Element [t] of [np.arange(n)] as a float64. *)
Definition float_of_index (t : Z) : float :=
  binary_normalize prec emax t 0 false.

(** Element [t] of [w*t + ph], [t] being [np.arange(n)]. *)
Definition angle (w ph : float) (t : Z) : float :=
  fadd (fmul w (float_of_index t)) ph.

(** [sig += x] for [x] given by its elements, [t] running from [t0]. *)
Fixpoint add_from (d : dtype) (t0 : Z) (x : Z -> C) (sig : list C) : list C :=
  match sig with
  | [] => []
  | s :: sig' => acc d s (x t0) :: add_from d (t0 + 1) x sig'
  end.

(** The loop of [complex_sinusoid], whose body is
    [sig += np.exp(1j*(2*np.pi*(int(n*freqs[i]) + bin_offset)/n*t + phases[i]))]:
    the operations on Python numbers are made left to right and an [int]
    that meets a [float] is converted first, which raises [OverflowError]
    past the largest double; the array comes in at [*t]. *)
Fixpoint sinusoid_loop (n : Z) (freqs phases : list pynum)
    (bin_offset : pynum) (d : dtype) (sig : list C) : result (list C) :=
  match freqs with
  | [] => Ok sig
  | f :: freqs' =>
      x <- int_mul_num n f ;;
      k <- py_int x ;;
      w <- coeff_of_bin n bin_offset k ;;
      match phases with
      | [] => Raise IndexError
      | p :: phases' =>
          ph <- float_of_num p ;;
          if is_complex d
          then sinusoid_loop n freqs' phases' bin_offset d
                 (add_from d 0 (fun t => exp_1j (angle w ph t)) sig)
          else Raise TypeError
      end
  end.

Definition complex_sinusoid (n : Z) (g : gen_args) (bin_offset : pynum)
    (d : dtype) : result (list C) :=
  let '(freqs, phases) := as_lists g in
  sig <- np_zeros n ;;
  sinusoid_loop n freqs phases bin_offset d sig.

End Generators.

(** ** Paths *)

Definition sep : ascii := "/"%char.
Definition extsep : ascii := "."%char.

Definition starts_with (c : ascii) (s : string) : bool :=
  match s with
  | String a _ => Ascii.eqb a c
  | EmptyString => false
  end.

Fixpoint ends_with (c : ascii) (s : string) : bool :=
  match s with
  | EmptyString => false
  | String a EmptyString => Ascii.eqb a c
  | String _ s' => ends_with c s'
  end.

(** One step of [os.path.join]. *)
Definition join2 (path b : string) : string :=
  if starts_with sep b then b
  else if (String.eqb path "") || ends_with sep path then path +:+ b
  else path +:+ "/" +:+ b.

(** [os.path.join(a, *p)]. *)
Definition path_join (a : string) (p : list string) : string :=
  fold_left join2 p a.

(** [s.rfind(c)]: index of the last [c], counted from [i]. *)
Fixpoint rfind_from (c : ascii) (s : string) (i : nat) (last : option nat)
  : option nat :=
  match s with
  | EmptyString => last
  | String a s' =>
      rfind_from c s' (S i) (if Ascii.eqb a c then Some i else last)
  end.
Definition rfind (c : ascii) (s : string) : option nat := rfind_from c s 0 None.

(** [s[i:]] and [s[:i]]. *)
Definition str_drop (i : nat) (s : string) : string :=
  substring i (String.length s - i) s.
Definition str_take (i : nat) (s : string) : string := substring 0 i s.

(** [os.path.basename(p)]. *)
Definition basename (p : string) : string :=
  match rfind sep p with
  | Some i => str_drop (S i) p
  | None => p
  end.

(** [os.path.dirname(p)] for the paths met here: the head before the last
    separator, without trailing separators unless it is all separators. *)
Fixpoint rstrip_sep (l : list ascii) : list ascii :=
  match l with
  | [] => []
  | a :: l' =>
      match rstrip_sep l' with
      | [] => if Ascii.eqb a sep then [] else [a]
      | r => a :: r
      end
  end.

Definition dirname (p : string) : string :=
  match rfind sep p with
  | Some i =>
      let head := str_take (S i) p in
      match rstrip_sep (list_ascii_of_string head) with
      | [] => head
      | r => string_of_list_ascii r
      end
  | None => ""
  end.

(** Is there a character other than [extsep] in [s[i:j]]? *)
Definition has_non_dot (s : string) (i j : nat) : bool :=
  existsb (fun a => negb (Ascii.eqb a extsep))
          (list_ascii_of_string (substring i (j - i) s)).

(** [os.path.splitext(p)[0]]. *)
Definition splitext_root (p : string) : string :=
  match rfind extsep p with
  | None => p
  | Some d =>
      let first := match rfind sep p with Some i => S i | None => O end in
      if (first <=? d)%nat && has_non_dot p first d then str_take d p else p
  end.

(** [s.split(c)]. *)
Fixpoint split_on (c : ascii) (s : string) : list string :=
  match s with
  | EmptyString => [""]
  | String a s' =>
      match split_on c s' with
      | w :: ws => if Ascii.eqb a c then "" :: w :: ws else String a w :: ws
      | [] => [String a ""]
      end
  end.

(** ** Values, files and the outside world *)

(** The values that travel through [DataVectorProducer.send] and the
    metadata record. *)
Inductive pyval : Set :=
  | VNone
  | VNum (a : pynum)
  | VStr (s : string)
  | VDtype (d : dtype)
  | VDada (file_path : string).   (* a [pfb.formats.DADAFile] object *)

(** Directories, files with their text, and the commands run so far.
    Paths are compared as written. *)
Record world : Type := World {
  dirs : gset string;
  files : gmap string string;
  trace : list string
}.

(** [os.path.exists(p)]. *)
Definition path_exists (p : string) (w : world) : bool :=
  bool_decide (p ∈ dirs w) || bool_decide (is_Some (files w !! p)).

(** The world once [text] has been written to the file [p]. *)
Definition write_file (p text : string) (w : world) : world :=
  World (dirs w) (<[p := text]> (files w)) (trace w).

Definition is_file (p : string) (w : world) : bool :=
  bool_decide (is_Some (files w !! p)).

(** A directory that is there: one of [dirs], or the working directory,
    written [""] as the directory of a bare name, or ["."]. *)
Definition is_dir (p : string) (w : world) : bool :=
  String.eqb p "" || String.eqb p "." || bool_decide (p ∈ dirs w).

(** [open(p, "w")] followed by the writing of [text]: the file is
    created or emptied in a directory that exists. *)
Definition open_write (p text : string) (w : world) : world * result unit :=
  if String.eqb p "" then (w, Raise FileNotFoundError)
  else if bool_decide (p ∈ dirs w) || ends_with sep p
  then (w, Raise IsADirectoryError)
  else if is_dir (dirname p) w then (write_file p text w, Ok tt)
  else if is_file (dirname p) w then (w, Raise NotADirectoryError)
  else (w, Raise FileNotFoundError).

Definition read_file (p : string) (w : world) : result string :=
  match files w !! p with
  | Some text => Ok text
  | None => Raise FileNotFoundError
  end.

(** The directories above [p], nearest first. *)
Fixpoint ancestors (fuel : nat) (p : string) : list string :=
  match fuel with
  | O => []
  | S fuel' =>
      let d := dirname p in
      if String.eqb d "" || String.eqb d p then [] else d :: ancestors fuel' d
  end.

(** [os.makedirs(p)]: the directories above [p] that are missing are
    made too; a regular file among them makes [mkdir] fail. *)
Definition makedirs (p : string) (w : world) : world * result unit :=
  if path_exists p w then (w, Raise FileExistsError)
  else if existsb (fun a => is_file a w) (ancestors (String.length p) p)
  then (w, Raise NotADirectoryError)
  else (World (dirs w ∪ {[ p ]} ∪ list_to_set (ancestors (String.length p) p))
              (files w) (trace w), Ok tt).

(** Computations that read and change the world and may raise. *)
Definition M (A : Type) : Type := world -> world * result A.

Definition ret {A} (a : A) : M A := fun w => (w, Ok a).
Definition raise {A} (e : exn) : M A := fun w => (w, Raise e).
Definition lift {A} (r : result A) : M A := fun w => (w, r).
Definition bind {A B} (m : M A) (k : A -> M B) : M B :=
  fun w => match m w with
           | (w', Ok a) => k a w'
           | (w', Raise e) => (w', Raise e)
           end.

Notation "x <~ m ;; k" := (bind m (fun x => k))
  (at level 100, m at next level, right associativity) : py_scope.

(** The collaborators outside the two modules and the configuration they
    read: the build and configuration directories, the header path of
    [load_config()], [repr] of a float and of an object, [shlex.split],
    [subprocess.run] (the effect of the command and its exit status, or
    the exception raised when it cannot be started), [json.load], and
    the file format of [pfb.formats], a package that is not among the
    sources: [load_data p] stands for [DADAFile(p).load_data()] and
    [dump_data p a] for [dump_data()] on a [DADAFile(p)] whose data is
    [a]; nothing is assumed of the two. *)
Class Env (C : Type) : Type := {
  build_dir : string;
  config_dir : string;
  header_file_path : string;
  float_repr : float -> string;
  object_repr : string -> string;
  shlex_split : string -> result (list string);
  process : list string -> option string -> world -> world * result Z;
  load_data : string -> world -> world * result (list (list (list C)));
  dump_data : string -> list (list (list C)) -> world -> world * result unit;
  json_load : string -> result (gmap string pyval)
}.

Definition dtype_repr (d : dtype) : string :=
  match d with
  | float32 => "<class 'numpy.float32'>"
  | float64 => "<class 'numpy.float64'>"
  | complex64 => "<class 'numpy.complex64'>"
  | complex128 => "<class 'numpy.complex128'>"
  end.

(** [matlab_dtype_lookup[d]]. *)
Definition matlab_dtype_lookup (d : dtype) : string :=
  match d with
  | float32 => "single"
  | float64 => "double"
  | complex64 => "single"
  | complex128 => "double"
  end.

Definition meta_data_file_name : string := "meta.json".

(** [_create_output_file_names]. *)
Definition _create_output_file_names (output_file_name : option string)
    (default_base : string) : string * string * string :=
  let '(output_base, output_file_name) :=
    match output_file_name with
    | None => (default_base, default_base +:+ ".dump")
    | Some name => (splitext_root name, name)
    end in
  let log_file_name := output_base +:+ ".log" in
  (output_base, log_file_name, output_file_name).

(** A field of a format string: the name before the first colon and the
    format specification after it. *)
Fixpoint split_colon (s : string) : string * string :=
  match s with
  | EmptyString => ("", "")
  | String c s' =>
      if Ascii.eqb c ":"%char then ("", s')
      else let '(name, spec) := split_colon s' in (String c name, spec)
  end.

Definition assoc (kw : list (string * pyval)) (name : string) : option pyval :=
  snd <$> find (fun p => String.eqb (fst p) name) kw.

(** The functions the three stage factories return, with the variables
    they close over. *)
Inductive stage_fn : Set :=
  | GenVec (backend : string)
  | ChannelizeMatlab (output_file_name : option string) (output_dir : string)
  | ChannelizePython
  | SynthesizeMatlab (output_file_name : option string) (output_dir : string)
  | SynthesizePython.

(** [params] as [find_existing_test_data] takes it: a dictionary or a
    sequence in the order of the domain. *)
Inductive params_arg : Type :=
  | PDict (m : gmap string pynum)
  | PSeq (l : list pynum).

(** Where the generator of [data_vector_producer] is suspended, with the
    local variables alive there. *)
Inductive sink_state : Type :=
  | AwaitGenerate (output_dir : string) (meta_data : gmap string pyval)
  | AwaitChannelize (output_dir : string) (meta_data : gmap string pyval)
      (input_file_path : pyval) (f : stage_fn)
  | AwaitSynthesize (output_dir : string) (meta_data : gmap string pyval)
      (input_file_path channelized_file_path : pyval) (f : stage_fn)
  | Exhausted.

(** A [DataVectorProducer] object. *)
Record producer : Type := Producer {
  self_meta_data : option (gmap string pyval);
  self_base_dir : string;
  self_domain_name : string;
  self_params : gmap string pynum;
  self_sink : sink_state
}.

(** A [pfb.formats.DADAFile] with its data loaded or assigned. *)
Record dada_file (C : Type) : Type := DadaFile {
  file_path : string;
  data : list (list (list C))
}.
Arguments DadaFile {C} file_path data.
Arguments file_path {C} d.
Arguments data {C} d.

Section Program.
Context {C : Type} `{SampleOps C} `{Env C}.

(** [str(v)]. *)
Definition py_str (v : pyval) : string :=
  match v with
  | VNone => "None"
  | VNum (PInt z) => str_of_Z z
  | VNum (PFloat x) => float_repr x
  | VStr s => s
  | VDtype d => dtype_repr d
  | VDada p => object_repr p
  end.

(** [format(v, spec)] for the specifications the templates use. *)
Definition format_value (v : pyval) (spec : string) : result string :=
  if String.eqb spec "" then Ok (py_str v)
  else if String.eqb spec ".3f" then
    match v with
    | VNum a => fmt3 a
    | VStr _ => Raise ValueError
    | _ => Raise TypeError
    end
  else Raise ValueError.

Definition render (kw : string -> option pyval) (field : string)
  : result string :=
  let '(name, spec) := split_colon field in
  if String.eqb name "" then Raise IndexError
  else match kw name with
       | None => Raise KeyError
       | Some v => format_value v spec
       end.

(** [template.format] on the keyword arguments [kw]: [field] is the text of the replacement
    field being read, if one is open. *)
Fixpoint format_go (kw : string -> option pyval) (s : string)
    (field : option string) : result string :=
  match s with
  | EmptyString =>
      match field with
      | None => Ok ""
      | Some _ => Raise ValueError
      end
  | String c s' =>
      match field with
      | None =>
          if Ascii.eqb c "{"%char then
            match s' with
            | String c' s'' =>
                if Ascii.eqb c' "{"%char
                then r <- format_go kw s'' None ;; Ok (String "{"%char r)
                else format_go kw s' (Some "")
            | EmptyString => Raise ValueError
            end
          else if Ascii.eqb c "}"%char then
            match s' with
            | String c' s'' =>
                if Ascii.eqb c' "}"%char
                then r <- format_go kw s'' None ;; Ok (String "}"%char r)
                else Raise ValueError
            | EmptyString => Raise ValueError
            end
          else r <- format_go kw s' None ;; Ok (String c r)
      | Some f =>
          if Ascii.eqb c "}"%char then
            v <- render kw f ;;
            r <- format_go kw s' None ;;
            Ok (v +:+ r)
          else if Ascii.eqb c "{"%char then Raise ValueError
          else format_go kw s' (Some (f +:+ String c ""))
      end
  end.

Definition py_format (template : string) (kw : string -> option pyval)
  : result string :=
  format_go kw template None.

(** [_run_cmd]: the log file is opened before the command is started;
    a command that has run is added to the trace. *)
Definition _run_cmd (cmd_str : string) (log_file_path : option string)
  : M unit :=
  fun w =>
    match shlex_split cmd_str with
    | Raise e => (w, Raise e)
    | Ok cmd_split =>
        match (match log_file_path with
               | Some p => open_write p "" w
               | None => (w, Ok tt)
               end) with
        | (w1, Raise e) => (w1, Raise e)
        | (w1, Ok _) =>
            match process cmd_split log_file_path w1 with
            | (w2, Raise e) => (w2, Raise e)
            | (w2, Ok returncode) =>
                let w3 := World (dirs w2) (files w2) (trace w2 ++ [cmd_str]) in
                if returncode =? 0 then (w3, Ok tt)
                else (w3, Raise RuntimeError)
            end
        end
    end.

(** ** The generator front end *)

Definition output_base_template : string :=
  "{{func_name}}.{n_bins}.{args}.{n_pol}.{dtype}.{backend}".

(** [time_domain_impulse(n_bins, *args, dtype=dtype)]. *)
Definition call_time_domain_impulse (n_bins : Z) (args : list pynum)
    (d : dtype) : result (list C) :=
  match args with
  | [offsets; widths] => time_domain_impulse n_bins (Scalars offsets widths) d
  | _ => Raise TypeError
  end.

(** [complex_sinusoid(n_bins, *args, dtype=dtype)]; [bin_offset]
    defaults to [0.0]. *)
Definition call_complex_sinusoid (n_bins : Z) (args : list pynum)
    (d : dtype) : result (list C) :=
  match args with
  | [freqs; phases] =>
      complex_sinusoid n_bins (Scalars freqs phases)
        (PFloat (S754_zero false)) d
  | [freqs; phases; bin_offset] =>
      complex_sinusoid n_bins (Scalars freqs phases) bin_offset d
  | _ => Raise TypeError
  end.

(** The two dictionaries keyed by the domain name: the handler names of
    the external tool, and the Python functions with their [__name__]. *)
Definition matlab_domain_name_map (domain_name : string) : result string :=
  if String.eqb domain_name "time" then Ok "time_domain_impulse"
  else if String.eqb domain_name "freq" then Ok "complex_sinusoid"
  else Raise KeyError.

Definition func_lookup (domain_name : string)
  : result (string * (Z -> list pynum -> dtype -> result (list C))) :=
  if String.eqb domain_name "time"
  then Ok ("time_domain_impulse", call_time_domain_impulse)
  else if String.eqb domain_name "freq"
  then Ok ("complex_sinusoid", call_complex_sinusoid)
  else Raise KeyError.

(** [output_data[:, 0, i_pol] = sig]. *)
Definition set_pol (i_pol : nat) (sig : list C)
    (output_data : list (list (list C))) : list (list (list C)) :=
  zip_with (fun row s => map (fun r => <[i_pol := s]> r) row) output_data sig.

(** [np.zeros((n, 1, n_pol), dtype=dtype)]. *)
Definition np_zeros3 (n : nat) (n_pol : Z) : result (list (list (list C))) :=
  if n_pol <? 0 then Raise ValueError
  else Ok (replicate n [replicate (Z.to_nat n_pol) czero]).

(** The function [generate_test_vector(backend)] returns. *)
Definition _generate_test_vector (backend domain_name : string)
    (n_bins : Z) (args : list pynum)
    (header_template output_file_name : option string)
    (output_dir : string) (n_pol : Z) (d : dtype)
  : M (option (dada_file C)) :=
  let header_template :=
    match header_template with
    | Some h => h
    | None => path_join config_dir [header_file_path]
    end in
  strs <~ lift (mapM fmt3 args) ;;
  let args_str := join "-" strs in
  let matlab_dtype_str := matlab_dtype_lookup d in
  output_base <~ lift (py_format output_base_template
    (assoc [("n_bins", VNum (PInt n_bins)); ("args", VStr args_str);
            ("n_pol", VNum (PInt n_pol)); ("dtype", VStr matlab_dtype_str);
            ("backend", VStr backend)])) ;;
  strs <~ lift (mapM fmt3 args) ;;
  let args_str := join "," strs in
  if String.eqb backend "matlab" then
    let matlab_cmd_str := "generate_test_vector" in
    matlab_handler_name <~ lift (matlab_domain_name_map domain_name) ;;
    output_base <~ lift (py_format output_base
      (assoc [("func_name", VStr matlab_handler_name)])) ;;
    let '(output_base, log_file_name, output_file_name) :=
      _create_output_file_names output_file_name output_base in
    let cmd_str :=
      path_join build_dir [matlab_cmd_str] +:+ " " +:+
      matlab_handler_name +:+ " " +:+ str_of_Z n_bins +:+ " " +:+
      args_str +:+ " " +:+ matlab_dtype_str +:+ " " +:+
      str_of_Z n_pol +:+ " " +:+ header_template +:+ " " +:+
      output_file_name +:+ " " +:+ output_dir +:+ " 1" in
    _ <~ _run_cmd cmd_str (Some (path_join output_dir [log_file_name])) ;;
    let path := path_join output_dir [output_file_name] in
    loaded <~ load_data path ;;
    ret (Some (DadaFile path loaded))
  else if String.eqb backend "python" then
    func <~ lift (func_lookup domain_name) ;;
    sig <~ lift (snd func n_bins args d) ;;
    zeros <~ lift (np_zeros3 (length sig) n_pol) ;;
    let output_data :=
      fold_left (fun out i_pol => set_pol i_pol sig out)
                (seq 0 (Z.to_nat n_pol)) zeros in
    output_base <~ lift (py_format output_base
      (assoc [("func_name", VStr (fst func))])) ;;
    let '(output_base, log_file_name, output_file_name) :=
      _create_output_file_names output_file_name output_base in
    let path := path_join output_dir [output_file_name] in
    _ <~ dump_data path output_data ;;
    ret (Some (DadaFile path output_data))
  else ret None.

Definition generate_test_vector (backend : string) :=
  _generate_test_vector backend.

(** ** The channelize and synthesize stages *)

Definition channelize (output_file_name : option string)
    (output_dir backend : string) : result stage_fn :=
  if String.eqb backend "matlab"
  then Ok (ChannelizeMatlab output_file_name output_dir)
  else if String.eqb backend "python" then Ok ChannelizePython
  else Raise UnboundLocalError.

Definition synthesize (output_file_name : option string)
    (output_dir backend : string) : result stage_fn :=
  if String.eqb backend "matlab"
  then Ok (SynthesizeMatlab output_file_name output_dir)
  else if String.eqb backend "python" then Ok SynthesizePython
  else Raise UnboundLocalError.

(** [_channelize] of the matlab backend. *)
Definition _channelize_matlab (output_file_name : option string)
    (output_dir : string)
    (input_data_file_path channels os_factor_str fir_filter_path : pyval)
  : M pyval :=
  let matlab_cmd_str := "channelize" in
  let _output_file_name := output_file_name in
  parts <~ lift (match os_factor_str with
                 | VStr s => Ok (split_on "/" s)
                 | _ => Raise AttributeError
                 end) ;;
  let output_base :=
    matlab_cmd_str +:+ "." +:+ py_str channels +:+ "." +:+ join "-" parts in
  let '(output_base, log_file_name, _output_file_name) :=
    _create_output_file_names _output_file_name output_base in
  let cmd_str :=
    path_join build_dir [matlab_cmd_str] +:+ " " +:+
    py_str input_data_file_path +:+ " " +:+
    py_str channels +:+ " " +:+ py_str os_factor_str +:+ " " +:+
    py_str fir_filter_path +:+
    _output_file_name +:+ " " +:+ output_dir +:+ " 1" in
  _ <~ _run_cmd cmd_str (Some (path_join output_dir [log_file_name])) ;;
  match output_file_name with
  | Some name => ret (VStr (path_join output_dir [name]))
  | None => raise TypeError
  end.

(** [_synthesize] of the matlab backend: [output_file_name] is assigned
    further down in the body, so it is a local name and the first
    statement reads it unbound. *)
Definition _synthesize_matlab (output_file_name : option string)
    (output_dir : string) (input_data_file_path input_fft_length : pyval)
  : M pyval :=
  raise UnboundLocalError.

(** [_generate_test_vector] called on positional values only; the
    values must fit its typed signature. *)
Definition call_generate_test_vector (backend : string) (args : list pyval)
  : M pyval :=
  match args with
  | VStr domain_name :: VNum (PInt n_bins) :: rest =>
      nums <~ lift (mapM (fun v => match v with
                                   | VNum a => Ok a
                                   | VStr _ => Raise ValueError
                                   | _ => Raise TypeError
                                   end) rest) ;;
      r <~ _generate_test_vector backend domain_name n_bins nums
             None None "./" 1 complex64 ;;
      ret (match r with
           | Some df => VDada (file_path df)
           | None => VNone
           end)
  | _ => raise TypeError
  end.

(** [f] called on the unpacked [args]: the positional arguments are
    bound to the parameters of [f]; a wrong number of them is a
    [TypeError]. *)
Definition call_stage (f : stage_fn) (args : list pyval) : M pyval :=
  match f with
  | GenVec backend => call_generate_test_vector backend args
  | ChannelizeMatlab output_file_name output_dir =>
      match args with
      | [a; b; c; d] => _channelize_matlab output_file_name output_dir a b c d
      | _ => raise TypeError
      end
  | ChannelizePython =>
      match args with
      | [channels; os_factor_str; fir_filter_path] =>
          raise NotImplementedError
      | _ => raise TypeError
      end
  | SynthesizeMatlab output_file_name output_dir =>
      match args with
      | [a; b] => _synthesize_matlab output_file_name output_dir a b
      | _ => raise TypeError
      end
  | SynthesizePython =>
      match args with
      | [input_fft_length] => raise NotImplementedError
      | _ => raise TypeError
      end
  end.

(** ** The cache lookup *)

Definition sub_dir_format_map (domain_name : string) : result string :=
  if String.eqb domain_name "time" then Ok "o-{offset:.3f}_w-{width:.3f}"
  else if String.eqb domain_name "freq"
  then Ok "f-{frequency:.3f}_b-{bin_offset:.3f}_p-{phase:.3f}"
  else Raise KeyError.

Definition domain_param_order (domain_name : string)
  : result (list string) :=
  if String.eqb domain_name "time" then Ok ["offset"; "width"]
  else if String.eqb domain_name "freq"
  then Ok ["frequency"; "phase"; "bin_offset"]
  else Raise KeyError.

(** [{arg_name: params[i] for i, arg_name in enumerate(names)}]. *)
Fixpoint dict_of_seq (names : list string) (params : list pynum)
  : result (gmap string pynum) :=
  match names with
  | [] => Ok ∅
  | name :: names' =>
      match params with
      | [] => Raise IndexError
      | v :: params' =>
          m <- dict_of_seq names' params' ;; Ok (<[name := v]> m)
      end
  end.

Definition kwargs_of (params : gmap string pynum) (name : string)
  : option pyval :=
  VNum <$> params !! name.

(** [find_existing_test_data] of [data_gen/util.py]. *)
Definition find_existing_test_data (base_dir domain_name : string)
    (params : params_arg) : M (option (gmap string pyval)) :=
  sub_dir_formatter <~ lift (sub_dir_format_map domain_name) ;;
  params_dict <~ lift (match params with
                       | PSeq l =>
                           names <- domain_param_order domain_name ;;
                           dict_of_seq names l
                       | PDict m => Ok m
                       end) ;;
  sub_dir <~ lift (py_format sub_dir_formatter (kwargs_of params_dict)) ;;
  let sub_dir_full := path_join base_dir [domain_name; sub_dir] in
  fun w =>
    if path_exists sub_dir_full w then
      let meta_data_file_path := path_join sub_dir [meta_data_file_name] in
      (w, text <- read_file meta_data_file_path w ;;
          meta_data <- json_load text ;;
          Ok (Some meta_data))
    else (w, Ok None).

(** [updir] of [data_gen/util.py]: [levels] counts the calls of
    [os.path.dirname] still to make. *)
Fixpoint updir (base_dir : string) (levels : nat) : string :=
  match levels with
  | O => base_dir
  | S levels' => updir (dirname base_dir) levels'
  end.

(** ** DataVectorProducer *)

(** [generate_test_vector] called with positional and keyword
    arguments: its only parameter is [backend]. *)
Definition call_generate_test_vector_factory (pos : list string)
    (kw : list (string * pyval)) : result stage_fn :=
  if existsb (fun p => negb (String.eqb (fst p) "backend")) kw
  then Raise TypeError
  else match pos, kw with
       | [], [] => Ok (GenVec "matlab")
       | [backend], [] => Ok (GenVec backend)
       | [], [(_, VStr backend)] => Ok (GenVec backend)
       | _, _ => Raise TypeError
       end.

(** [l.insert(i, v)]. *)
Definition py_insert {A} (i : nat) (v : A) (l : list A) : list A :=
  take i l ++ v :: drop i l.

(** [for i, v in enumerate(vs): l.insert(i+1, v)], [i] counted from [i0]. *)
Fixpoint insert_params {A} (i0 : nat) (vs : list A) (l : list A) : list A :=
  match vs with
  | [] => l
  | v :: vs' => insert_params (S i0) vs' (py_insert (S i0) v l)
  end.

(** [os.path.basename] of a value: a [str] is needed. *)
Definition basename_of (v : pyval) : result pyval :=
  match v with
  | VStr p => Ok (VStr (basename p))
  | _ => Raise TypeError
  end.

(** The generator body up to its first [yield]: on a hit the record
    is read and the generator returns; on a miss it suspends. *)
Definition data_vector_producer (base_dir domain_name : string)
    (params : gmap string pynum)
  : M (option (gmap string pyval) * sink_state) :=
  sub_dir_formatter <~ lift (sub_dir_format_map domain_name) ;;
  sub_dir <~ lift (py_format sub_dir_formatter (kwargs_of params)) ;;
  let sub_dir_full := path_join base_dir [domain_name; sub_dir] in
  fun w =>
    if path_exists sub_dir_full w then
      let meta_data_file_path := path_join sub_dir [meta_data_file_name] in
      (w, text <- read_file meta_data_file_path w ;;
          meta_data <- json_load text ;;
          Ok (Some meta_data, Exhausted))
    else
      (_ <~ makedirs sub_dir_full ;;
       let output_dir := sub_dir_full in
       let meta_data : gmap string pyval := VNum <$> params in
       ret (None, AwaitGenerate output_dir meta_data)) w.

(** From the first [yield] to the second. *)
Definition resume_generate (domain_name : string)
    (params : gmap string pynum) (output_dir : string)
    (meta_data : gmap string pyval) (test_vector_args : list pyval)
  : M sink_state :=
  n_pol <~ lift (match test_vector_args with
                 | v :: _ => Ok v
                 | [] => Raise IndexError
                 end) ;;
  f <~ lift (call_generate_test_vector_factory [domain_name]
               [("output_dir", VStr output_dir); ("n_pol", n_pol)]) ;;
  order <~ lift (domain_param_order domain_name) ;;
  vector_params <~ lift (mapM (fun p => match params !! p with
                                        | Some v => Ok (VNum v)
                                        | None => Raise KeyError
                                        end) order) ;;
  let test_vector_args := tail test_vector_args in
  let test_vector_args := insert_params 0 vector_params test_vector_args in
  input_file_path <~ call_stage f test_vector_args ;;
  f <~ lift (channelize None output_dir "matlab") ;;
  ret (AwaitChannelize output_dir meta_data input_file_path f).

(** From the second [yield] to the third. *)
Definition resume_channelize (output_dir : string)
    (meta_data : gmap string pyval) (input_file_path : pyval)
    (f : stage_fn) (channelized_args : list pyval) : M sink_state :=
  let synthesized_args := input_file_path :: channelized_args in
  channelized_file_path <~ call_stage f channelized_args ;;
  ret (AwaitSynthesize output_dir meta_data input_file_path
         channelized_file_path f).

(** From the third [yield] to the end of the generator: the value is
    what [self.meta_data] is set to. *)
Definition resume_synthesize (output_dir : string)
    (meta_data : gmap string pyval)
    (input_file_path channelized_file_path : pyval) (f : stage_fn)
    (synthesized_args : list pyval) : M (gmap string pyval) :=
  let synthesized_args := channelized_file_path :: synthesized_args in
  synthesized_file_path <~ call_stage f synthesized_args ;;
  b1 <~ lift (basename_of input_file_path) ;;
  let meta_data := <["input_file" := b1]> meta_data in
  b2 <~ lift (basename_of channelized_file_path) ;;
  let meta_data := <["channelized_file" := b2]> meta_data in
  b3 <~ lift (basename_of synthesized_file_path) ;;
  let meta_data := <["inverted_file" := b3]> meta_data in
  ret meta_data.

(** [DataVectorProducer(base_dir, domain_name, params)]: [coro] runs
    the generator to its first [yield] with [next], which raises
    [StopIteration] when the generator returns instead. *)
Definition new_producer (base_dir domain_name : string)
    (params : gmap string pynum) : M producer :=
  r <~ data_vector_producer base_dir domain_name params ;;
  match snd r with
  | Exhausted => raise StopIteration
  | sink => ret (Producer None base_dir domain_name params sink)
  end.

Definition with_sink (self : producer)
    (meta_data : option (gmap string pyval)) (sink : sink_state)
  : producer :=
  Producer meta_data (self_base_dir self) (self_domain_name self)
           (self_params self) sink.

(** [self.send], that is [self.sink.send(args)] on the tuple [args]: the object
    after the call and what the call does. *)
Definition send (self : producer) (args : list pyval)
  : world -> world * (producer * result unit) :=
  fun w =>
    let suspended (r : world * result sink_state) :=
      match r with
      | (w', Ok sink) => (w', (with_sink self (self_meta_data self) sink, Ok tt))
      | (w', Raise e) =>
          (w', (with_sink self (self_meta_data self) Exhausted, Raise e))
      end in
    match self_sink self with
    | Exhausted => (w, (self, Raise StopIteration))
    | AwaitGenerate output_dir meta_data =>
        suspended (resume_generate (self_domain_name self) (self_params self)
                     output_dir meta_data args w)
    | AwaitChannelize output_dir meta_data input_file_path f =>
        suspended (resume_channelize output_dir meta_data input_file_path
                     f args w)
    | AwaitSynthesize output_dir meta_data input_file_path
        channelized_file_path f =>
        match resume_synthesize output_dir meta_data input_file_path
                channelized_file_path f args w with
        | (w', Ok meta_data) =>
            (w', (with_sink self (Some meta_data) Exhausted,
                  Raise StopIteration))
        | (w', Raise e) =>
            (w', (with_sink self (self_meta_data self) Exhausted, Raise e))
        end
    end.

End Program.

(** ** A concrete setting to run the model in

    Samples are kept as the expressions numpy would evaluate, and the
    outside world is quiet: external commands exit with status 0 and
    change nothing, no stored text decodes. *)

Inductive sym : Set :=
  | SZero
  | SOne
  | SExp (x : float)
  | SAcc (d : dtype) (a b : sym).

#[export] Instance sym_ops : SampleOps sym :=
  {| czero := SZero; cone := SOne; exp_1j := SExp; acc := SAcc |}.

#[export] Instance quiet_env : Env sym :=
  {| build_dir := "build";
     config_dir := "config";
     header_file_path := "default_header.json";
     float_repr := fun _ => "<float>";
     object_repr := fun _ => "<object>";
     shlex_split := fun s => Ok (split_on " "%char s);
     process := fun _ _ w => (w, Ok 0);
     load_data := fun _ w => (w, Raise FileNotFoundError);
     dump_data := fun p _ w => open_write p "<dada>" w;
     json_load := fun _ => Raise JSONDecodeError |}.

Definition empty_world : world := World ∅ ∅ [].

(** [{"offset": 0.1, "width": 1.0}]. *)
Definition time_params : gmap string pynum :=
  {[ "offset" := PFloat (lit 1 10); "width" := PFloat (lit 1 1) ]}.

(** * The vocabulary of the properties *)

(** Characters that neither open or close a replacement field nor
    separate path components. *)
Definition plain_char (c : ascii) : bool :=
  negb (Ascii.eqb c "{"%char) && negb (Ascii.eqb c "}"%char)
  && negb (Ascii.eqb c sep).

Fixpoint plain (s : string) : bool :=
  match s with
  | EmptyString => true
  | String c s' => plain_char c && plain s'
  end.

(** The default base name, as the two [format] calls build it. *)
Definition canonical_base (func_name : string) (n_bins : Z)
    (strs : list string) (n_pol : Z) (d : dtype) (backend : string)
  : string :=
  func_name +:+ "." +:+ str_of_Z n_bins +:+ "." +:+ join "-" strs +:+ "."
  +:+ str_of_Z n_pol +:+ "." +:+ matlab_dtype_lookup d +:+ "." +:+ backend.

(** [("freq", 1000, 0.1, np.pi/4, 0.1)], the arguments of the repository's
    own test. *)
Definition freq_domain_args : list pynum :=
  [PFloat (lit 1 10);
   PFloat (fdiv np_pi (binary_normalize prec emax 4 0 false));
   PFloat (lit 1 10)].

(** Is a directory above [p] a regular file? *)
Definition blocked (p : string) (w : world) : bool :=
  existsb (fun a => is_file a w) (ancestors (String.length p) p).

(** The world after [os.makedirs(p)] has succeeded. *)
Definition with_dirs (p : string) (w : world) : world :=
  World (dirs w ∪ {[ p ]} ∪ list_to_set (ancestors (String.length p) p))
        (files w) (trace w).

(** Sending the tuples one after the other, the caller going on after
    each exception: the object and the world at the end, and what each
    call did. *)
Fixpoint send_all {C : Type} `{SampleOps C} `{Env C} (self : producer)
    (tuples : list (list pyval)) (w : world)
  : world * (producer * list (result unit)) :=
  match tuples with
  | [] => (w, (self, []))
  | args :: tuples' =>
      let '(w1, (self1, r)) := send self args w in
      let '(w2, (self2, rs)) := send_all self1 tuples' w1 in
      (w2, (self2, r :: rs))
  end.


(** A world where the time-domain request of [time_params] is cached
    under ["data"]: the directory and its record. *)
Definition cached_world : world :=
  World {[ "data/time/o-0.100_w-1.000" ]}
        {[ "data/time/o-0.100_w-1.000/meta.json" := "{}" ]} [].

(** The calls of the class documentation:
    [send(2, 1000, np.float32)], [send(8, "8/7", fir)], [send(1024)]. *)
Definition documented_tuples : list (list pyval) :=
  [[VNum (PInt 2); VNum (PInt 1000); VDtype float32];
   [VNum (PInt 8); VStr "8/7"; VStr "./../config/OS_Prototype_FIR_8.mat"];
   [VNum (PInt 1024)]].

(** [math.floor(x)], the largest integer not above [x]. *)
Definition floor_of_float (x : float) : result Z :=
  match x with
  | S754_zero _ => Ok 0
  | S754_infinity _ => Raise OverflowError
  | S754_nan => Raise ValueError
  | S754_finite s m e =>
      Ok (if 0 <=? e then cond_Zopp s (Zpos m) * 2 ^ e
          else cond_Zopp s (Zpos m) / 2 ^ (- e))
  end.

Definition py_floor (a : pynum) : result Z :=
  match a with
  | PInt z => Ok z
  | PFloat x => floor_of_float x
  end.

(** Not below zero (a NaN passes: no integer comes of it). *)
Definition float_nonneg (x : float) : bool :=
  match x with
  | S754_zero _ | S754_nan => true
  | S754_infinity s | S754_finite s _ _ => negb s
  end.

Definition num_nonneg (a : pynum) : bool :=
  match a with
  | PInt z => 0 <=? z
  | PFloat x => float_nonneg x
  end.

(** The first sample of impulse [i] as the code computes it,
    [int(offsets[i]*n)], and as the specification words it,
    [floor(offsets[i]*n)]. *)
Definition offset_of (n : Z) (o : pynum) : result Z :=
  x <- num_mul_int o n ;; py_int x.

Definition floor_offset (n : Z) (o : pynum) : result Z :=
  x <- num_mul_int o n ;; py_floor x.

(** Is index [t] in the slice [start:stop] of a sequence of length [n]? *)
Definition in_slice (n start stop t : Z) : bool :=
  (adjust n start <=? t) && (t <? adjust n stop).

(** Is [t] in one of the intervals [[k, k + w)]? *)
Definition in_intervals (kws : list (Z * Z)) (t : Z) : bool :=
  existsb (fun kw => (fst kw <=? t) && (t <? fst kw + snd kw)) kws.

(** [round(x)], the nearest integer, a tie going to the even one. *)
Definition round_of_float (x : float) : result Z :=
  match x with
  | S754_zero _ => Ok 0
  | S754_infinity _ => Raise OverflowError
  | S754_nan => Raise ValueError
  | S754_finite s m e =>
      Ok (cond_Zopp s
            (if 0 <=? e then Zpos m * 2 ^ e
             else
               let d := 2 ^ (- e) in
               let q := Zpos m / d in
               match 2 * (Zpos m mod d) ?= d with
               | Lt => q
               | Eq => if Z.even q then q else q + 1
               | Gt => q + 1
               end))
  end.

Definition py_round (a : pynum) : result Z :=
  match a with
  | PInt z => Ok z
  | PFloat x => round_of_float x
  end.

(** The bin of tone [i] as the code computes it, [int(n*freqs[i])], and
    as the specification words it, [round(n*freqs[i])]. *)
Definition bin_of (n : Z) (f : pynum) : result Z :=
  x <- int_mul_num n f ;; py_int x.

Definition nearest_bin (n : Z) (f : pynum) : result Z :=
  x <- int_mul_num n f ;; py_round x.

(** The samples over the real numbers, as the pairs of their real and
    imaginary parts: [exp_1j x] is [(cos x, sin x)] at the real number
    the double [x] stands for, and [acc] the sum of complex numbers. *)
Definition float_R (x : float) : R :=
  match x with
  | S754_finite s m e =>
      ((if s then -1 else 1) * IZR (Zpos m) * powerRZ 2 e)%R
  | _ => 0%R
  end.

Definition num_R (a : pynum) : R :=
  match a with
  | PInt z => IZR z
  | PFloat x => float_R x
  end.

#[export] Instance real_ops : SampleOps (R * R) :=
  {| czero := (0%R, 0%R);
     cone := (1%R, 0%R);
     exp_1j := fun x => (cos (float_R x), sin (float_R x));
     acc := fun _ a b => (fst a + fst b, snd a + snd b)%R |}.

Section Vocabulary.
Context {C : Type} `{SampleOps C}.



(** The samples after the loop: the slices are filled one after the
    other, a later one over an earlier one. *)
Definition paint (kws : list (Z * Z)) (sig : list C) : list C :=
  fold_left (fun s kw => slice_assign (fst kw) (fst kw + snd kw) cone s)
            kws sig.

(** The samples as the specification describes them: [n] of them, a one
    at the indices of the intervals [[k, k + w)] and a zero elsewhere. *)
Definition claimed_impulse (n : Z) (ks widths : list Z) (sig : list C)
  : Prop :=
  length sig = Z.to_nat n /\
  forall t, 0 <= t < n ->
    sig !! Z.to_nat t
    = Some (if in_intervals (zip ks widths) t then cone else czero).

(** The samples after the loop: the tones, each given by its
    coefficient [w] and its phase [ph], are added one after the other. *)
Definition mix (d : dtype) (wps : list (float * float)) (sig : list C)
  : list C :=
  fold_left (fun s wp =>
               add_from d 0 (fun t => exp_1j (angle (fst wp) (snd wp) t)) s)
            wps sig.

(** Sample [t] of the superposition of the tones [wps], from [s0] on:
    the sum, in the order of the list, of [exp(1j*(w*t + ph))]. *)
Definition superpose (d : dtype) (wps : list (float * float)) (t : Z)
    (s0 : C) : C :=
  fold_left (fun s wp =>
               acc d s (exp_1j (fadd (fmul (fst wp) (float_of_index t))
                                     (snd wp))))
            wps s0.

(** The samples as the specification describes them for the bins [ks]:
    [n] of them, sample [t] the superposition over [i] of
    [exp(1j*(2*pi*(ks[i] + bin_offset)/n*t + phases[i]))], the numbers
    being doubles. *)
Definition claimed_sinusoid (n : Z) (ks : list Z) (phases : list pynum)
    (bin_offset : pynum) (d : dtype) (sig : list C) : Prop :=
  exists ws phs,
    mapM (coeff_of_bin n bin_offset) ks = Ok ws /\
    mapM float_of_num (take (length ks) phases) = Ok phs /\
    length sig = Z.to_nat n /\
    forall t, 0 <= t < n ->
      sig !! Z.to_nat t = Some (superpose d (zip ws phs) t czero).

End Vocabulary.

(** ** Impulses given as pairs *)

(** Impulses given by their pairs of an offset and a width, as the two
    parallel lists [time_domain_impulse] takes. *)
Definition impulses (pairs : list (pynum * Z)) : gen_args :=
  Lists (map fst pairs) (map PInt (map snd pairs)).

(** The slice of an impulse: its first sample [int(offset*n)] and its
    width (first sample 0 when the offset has no integer). *)
Definition kw_of (n : Z) (p : pynum * Z) : Z * Z :=
  match offset_of n (fst p) with
  | Ok k => (k, snd p)
  | Raise _ => (0, snd p)
  end.

(** ** Characters of a name *)

(** [c not in s]. *)
Fixpoint lacks (c : ascii) (s : string) : bool :=
  match s with
  | EmptyString => true
  | String a s' => negb (Ascii.eqb a c) && lacks c s'
  end.

(** ** The sub-directory of a request *)

(** The name of the cache sub-directory of [params] in a domain: the
    template of the domain filled with the parameters. *)
Definition cache_key {C : Type} `{SampleOps C} `{Env C}
    (domain_name : string) (params : gmap string pynum) : result string :=
  sub_dir_formatter <- sub_dir_format_map domain_name ;;
  py_format sub_dir_formatter (kwargs_of params).

(** * Properties *)

(** ** The stage factories under the python backend *)

Section StageFacts.
Context {C : Type} `{SampleOps C} `{Env C}.

(** C9: under the python backend the function returned by [channelize]
    (called on its three arguments) and the one returned by
    [synthesize] (called on its one argument) raise
    [NotImplementedError] at once and leave the world as it was: no
    file, no directory, no command. *)
Theorem python_stages_not_implemented
    (output_file_name : option string) (output_dir : string)
    (channels os_factor_str fir_filter_path input_fft_length : pyval)
    (w : world) :
  (exists f, channelize output_file_name output_dir "python" = Ok f /\
     call_stage f [channels; os_factor_str; fir_filter_path] w
     = (w, Raise NotImplementedError)) /\
  (exists g, synthesize output_file_name output_dir "python" = Ok g /\
     call_stage g [input_fft_length] w = (w, Raise NotImplementedError)).
Proof.
  split.
  - exists ChannelizePython. split; reflexivity.
  - exists SynthesizePython. split; reflexivity.
Qed.

(** The first statement after the first [yield] fails for every tuple:
    [generate_test_vector] takes [backend] only. *)
Lemma resume_generate_raises (domain_name : string)
    (params : gmap string pynum) (output_dir : string)
    (meta_data : gmap string pyval) (args : list pyval) (w : world) :
  resume_generate domain_name params output_dir meta_data args w
  = (w, Raise (match args with [] => IndexError | _ => TypeError end)).
Proof.
  destruct args as [|v args]; reflexivity.
Qed.

Lemma send_await_generate (self : producer) (output_dir : string)
    (meta_data : gmap string pyval) (args : list pyval) (w : world) :
  self_sink self = AwaitGenerate output_dir meta_data ->
  send self args w
  = (w, (with_sink self (self_meta_data self) Exhausted,
         Raise (match args with [] => IndexError | _ => TypeError end))).
Proof.
  intros Hs. unfold send. rewrite Hs, resume_generate_raises. reflexivity.
Qed.

End StageFacts.

(** ** Text without braces and separators *)

Lemma plain_app (a b : string) : plain (a +:+ b) = plain a && plain b.
Proof.
  induction a as [|c a IH]; simpl; [reflexivity|].
  rewrite IH. apply andb_assoc.
Qed.

Lemma plain_string_of_uint (u : Decimal.uint) :
  plain (NilEmpty.string_of_uint u) = true.
Proof.
  induction u; simpl; auto.
Qed.

Lemma plain_str_of_Z (z : Z) : plain (str_of_Z z) = true.
Proof.
  unfold str_of_Z, NilZero.string_of_int, NilZero.string_of_uint.
  destruct (Z.to_int z) as [u|u]; destruct u; simpl;
    auto using plain_string_of_uint.
Qed.

Lemma plain_pad3 (k : Z) : plain (pad3 k) = true.
Proof.
  unfold pad3.
  destruct (k <? 10); [|destruct (k <? 100)];
    rewrite ?plain_app, ?plain_str_of_Z; reflexivity.
Qed.

Lemma plain_fmt3_float (x : float) : plain (fmt3_float x) = true.
Proof.
  destruct x as [s|s| |s m e]; try (destruct s; reflexivity); [reflexivity|].
  unfold fmt3_float.
  rewrite !plain_app, plain_str_of_Z, plain_pad3.
  destruct s; reflexivity.
Qed.

Lemma plain_fmt3 (a : pynum) (s : string) : fmt3 a = Ok s -> plain s = true.
Proof.
  destruct a as [z|x]; simpl.
  - destruct (float_of_Z z) as [x|e]; simpl; [|discriminate].
    intros [= <-]. apply plain_fmt3_float.
  - intros [= <-]. apply plain_fmt3_float.
Qed.

Lemma plain_mapM_fmt3 (args : list pynum) (strs : list string) :
  mapM fmt3 args = Ok strs -> Forall (fun s => plain s = true) strs.
Proof.
  revert strs. induction args as [|a args IH]; simpl; intros strs.
  - intros [= <-]. constructor.
  - destruct (fmt3 a) as [s|e] eqn:Ha; simpl; [|discriminate].
    destruct (mapM fmt3 args) as [l|e]; simpl; [|discriminate].
    intros [= <-]. constructor; eauto using plain_fmt3.
Qed.

Lemma plain_join (sp : string) (l : list string) :
  plain sp = true -> Forall (fun s => plain s = true) l ->
  plain (join sp l) = true.
Proof.
  intros Hsp. induction 1 as [|s l Hs Hl IH]; simpl; [reflexivity|].
  destruct l as [|s' l]; [assumption|].
  rewrite !plain_app, Hs, Hsp, IH. reflexivity.
Qed.

Lemma plain_matlab_dtype_lookup (d : dtype) :
  plain (matlab_dtype_lookup d) = true.
Proof. destruct d; reflexivity. Qed.

(** ** Three decimals *)

Lemma length_pad3 (k : Z) : 0 <= k < 1000 -> String.length (pad3 k) = 3%nat.
Proof.
  intros Hk.
  assert (Hall : forallb (fun i => Nat.eqb (String.length (pad3 (Z.of_nat i))) 3)
                         (seq 0 1000) = true) by (vm_compute; reflexivity).
  rewrite forallb_forall in Hall.
  specialize (Hall (Z.to_nat k)). rewrite Z2Nat.id in Hall by lia.
  apply Nat.eqb_eq, Hall, in_seq. lia.
Qed.

(** A finite float is written as its sign, the digits of its integer
    part, a point and exactly three digits. *)
Lemma fmt3_float_three_decimals (s : bool) (m : positive) (e : Z) :
  exists int_part frac,
    fmt3_float (S754_finite s m e)
    = (if s then "-" else "") +:+ int_part +:+ "." +:+ frac /\
    String.length frac = 3%nat.
Proof.
  exists (str_of_Z (scale3 m e / 1000)), (pad3 (scale3 m e mod 1000)).
  split; [reflexivity|].
  apply length_pad3, Z.mod_pos_bound. lia.
Qed.

Lemma plain_no_sep (s : string) :
  plain s = true -> starts_with sep s = false.
Proof.
  destruct s as [|c s]; simpl; [reflexivity|].
  unfold plain_char. destruct (Ascii.eqb c sep); simpl.
  - rewrite andb_false_r. discriminate.
  - reflexivity.
Qed.

Lemma rfind_from_app (c : ascii) (a b : string) (i : nat) (last : option nat) :
  rfind_from c (a +:+ b) i last
  = rfind_from c b (i + String.length a)%nat (rfind_from c a i last).
Proof.
  revert i last. induction a as [|x a IH]; simpl; intros i last.
  - f_equal. lia.
  - rewrite IH. f_equal. lia.
Qed.

Lemma rfind_from_plain (s : string) (i : nat) (last : option nat) :
  plain s = true -> rfind_from sep s i last = last.
Proof.
  revert i last. induction s as [|c s IH]; simpl; intros i last Hp.
  - reflexivity.
  - apply andb_prop in Hp as [Hc Hs]. rewrite IH by assumption.
    unfold plain_char in Hc. destruct (Ascii.eqb c sep); [|reflexivity].
    rewrite andb_false_r in Hc. discriminate.
Qed.

Lemma rfind_from_ends (c : ascii) (s : string) (i : nat) (last : option nat) :
  ends_with c s = true ->
  rfind_from c s i last = Some (i + pred (String.length s))%nat.
Proof.
  revert i last. induction s as [|x s IH]; intros i last He.
  - discriminate.
  - destruct s as [|y s].
    + simpl in *. rewrite He. f_equal. lia.
    + change (rfind_from c (String x (String y s)) i last)
        with (rfind_from c (String y s) (S i)
                (if Ascii.eqb x c then Some i else last)).
      rewrite IH by exact He. simpl. f_equal. lia.
Qed.

Lemma ends_with_nonempty (c : ascii) (s : string) :
  ends_with c s = true -> String.length s = S (pred (String.length s)).
Proof. destruct s; [discriminate|reflexivity]. Qed.

Lemma app_cons (c : ascii) (a b : string) :
  String c a +:+ b = String c (a +:+ b).
Proof. reflexivity. Qed.

Lemma str_app_nil_r (a : string) : a +:+ "" = a.
Proof.
  induction a as [|x a IH]; [reflexivity|].
  rewrite app_cons. f_equal. exact IH.
Qed.

Lemma string_length_app (a b : string) :
  String.length (a +:+ b) = (String.length a + String.length b)%nat.
Proof.
  induction a as [|x a IH]; [reflexivity|].
  rewrite app_cons. simpl. congruence.
Qed.

Lemma substring_all (s : string) : substring 0 (String.length s) s = s.
Proof. induction s; simpl; congruence. Qed.

Lemma substring_app_drop (a b : string) :
  substring (String.length a) (String.length b) (a +:+ b) = b.
Proof.
  induction a as [|x a IH]; [apply substring_all|].
  rewrite app_cons. simpl. exact IH.
Qed.

Lemma str_drop_app (a b : string) : str_drop (String.length a) (a +:+ b) = b.
Proof.
  unfold str_drop. rewrite string_length_app.
  replace (String.length a + String.length b - String.length a)%nat
    with (String.length b) by lia.
  apply substring_app_drop.
Qed.

(** The last component of [a + name] is [name] when [a] is empty or ends
    with the separator and [name] has none. *)
Lemma basename_app (a name : string) :
  a = "" \/ ends_with sep a = true -> plain name = true ->
  basename (a +:+ name) = name.
Proof.
  intros Ha Hn. unfold basename, rfind. rewrite rfind_from_app.
  rewrite rfind_from_plain by assumption.
  destruct Ha as [->|Ha].
  - reflexivity.
  - rewrite (rfind_from_ends _ _ _ _ Ha). simpl.
    rewrite <- (ends_with_nonempty _ _ Ha). apply str_drop_app.
Qed.

Lemma ends_with_app_sep (a : string) : ends_with sep (a +:+ "/") = true.
Proof.
  induction a as [|x a IH]; [reflexivity|].
  simpl. destruct (a +:+ "/") eqn:E; [destruct a; discriminate|exact IH].
Qed.

(** [os.path.basename(os.path.join(output_dir, name))] is [name]. *)
Lemma basename_path_join (output_dir name : string) :
  plain name = true -> basename (path_join output_dir [name]) = name.
Proof.
  intros Hn. unfold path_join. simpl. unfold join2.
  rewrite (plain_no_sep _ Hn).
  destruct (String.eqb output_dir "") eqn:E; simpl.
  - apply String.eqb_eq in E as ->. apply basename_app; auto.
  - destruct (ends_with sep output_dir) eqn:Es.
    + apply basename_app; auto.
    + change (output_dir +:+ "/" +:+ name)
        with (output_dir +:+ ("/" +:+ name)).
      replace (output_dir +:+ ("/" +:+ name))
        with ((output_dir +:+ "/") +:+ name).
      * apply basename_app; auto using ends_with_app_sep.
      * clear. induction output_dir as [|x a IH]; [reflexivity|].
        rewrite !app_cons. f_equal. exact IH.
Qed.

(** ** Output names *)

Section Naming.
Context {C : Type} `{SampleOps C} `{Env C}.

(** Text without braces is copied by [format]. *)
Lemma format_go_plain (kw : string -> option pyval) (s : string) :
  plain s = true -> format_go kw s None = Ok s.
Proof.
  induction s as [|c s IH]; simpl; intros Hp; [reflexivity|].
  apply andb_prop in Hp as [Hc Hs].
  unfold plain_char in Hc.
  destruct (Ascii.eqb c "{"%char); [discriminate|].
  destruct (Ascii.eqb c "}"%char); [discriminate|].
  rewrite IH by assumption. reflexivity.
Qed.

(** The first [format] fills every field but [func_name], whose doubled
    braces become single ones. *)
Lemma format_output_base_template (n_bins n_pol : Z)
    (args_str dtype_str backend : string) :
  py_format output_base_template
    (assoc [("n_bins", VNum (PInt n_bins)); ("args", VStr args_str);
            ("n_pol", VNum (PInt n_pol)); ("dtype", VStr dtype_str);
            ("backend", VStr backend)])
  = Ok ("{func_name}." +:+ str_of_Z n_bins +:+ "." +:+ args_str +:+ "."
        +:+ str_of_Z n_pol +:+ "." +:+ dtype_str +:+ "." +:+ backend).
Proof.
  rewrite <- (str_app_nil_r backend) at 2. reflexivity.
Qed.

(** The second [format] puts the function name in. *)
Lemma format_func_name (func_name rest : string) :
  plain rest = true ->
  py_format ("{func_name}." +:+ rest) (assoc [("func_name", VStr func_name)])
  = Ok (func_name +:+ "." +:+ rest).
Proof.
  intros Hp. unfold py_format.
  change ("{func_name}." +:+ rest)
    with (String "{" (String "f" (String "u" (String "n" (String "c"
         (String "_" (String "n" (String "a" (String "m" (String "e"
         (String "}" (String "." rest)))))))))))).
  cbn -[String.append]. rewrite format_go_plain by assumption.
  reflexivity.
Qed.

End Naming.

(** ** The generators return [n] samples *)

Section GeneratorFacts.
Context {C : Type} `{SampleOps C}.

Lemma length_np_zeros (n : Z) (sig : list C) :
  np_zeros n = Ok sig -> length sig = Z.to_nat n /\ 0 <= n.
Proof.
  unfold np_zeros. destruct (n <? 0) eqn:E; [discriminate|].
  intros [= <-]. rewrite length_replicate. split; [reflexivity|lia].
Qed.

Lemma length_fill_from (i lo hi : Z) (v : C) (l : list C) :
  length (fill_from i lo hi v l) = length l.
Proof.
  revert i. induction l as [|x l IH]; simpl; intros i; [reflexivity|].
  now rewrite IH.
Qed.

Lemma length_slice_assign (start stop : Z) (v : C) (l : list C) :
  length (slice_assign start stop v l) = length l.
Proof. apply length_fill_from. Qed.


Lemma length_add_from (d : dtype) (t0 : Z) (x : Z -> C) (sig : list C) :
  length (add_from d t0 x sig) = length sig.
Proof.
  revert t0. induction sig as [|s sig IH]; simpl; intros t0; [reflexivity|].
  now rewrite IH.
Qed.




(** Filling the polarizations one after the other: after [k] of them
    every row holds its sample [k] times, then zeros. *)
Lemma set_pol_step (p k : nat) (sig : list C) :
  (k < p)%nat ->
  set_pol k sig
    (map (fun s => [(replicate k s ++ replicate (p - k) czero)%list]) sig)
  = map (fun s => [(replicate (S k) s ++ replicate (p - S k) czero)%list]) sig.
Proof.
  intros Hk. unfold set_pol.
  induction sig as [|s sig IH]; simpl; [reflexivity|].
  f_equal; [|exact IH]. f_equal.
  rewrite insert_app_r_alt by (rewrite length_replicate; lia).
  rewrite length_replicate, Nat.sub_diag.
  replace (p - k)%nat with (S (p - S k)) by lia.
  transitivity ((replicate k s ++ [s]) ++ replicate (p - S k) czero)%list.
  - now rewrite <- app_assoc.
  - now rewrite <- replicate_cons_app.
Qed.

Lemma fold_set_pol (p k : nat) (sig : list C) :
  (k <= p)%nat ->
  fold_left (fun out i_pol => set_pol i_pol sig out) (seq 0 k)
    (map (fun s => [replicate p czero]) sig)
  = map (fun s => [(replicate k s ++ replicate (p - k) czero)%list]) sig.
Proof.
  induction k as [|k IH]; intros Hk.
  - simpl. now rewrite Nat.sub_0_r.
  - rewrite seq_S, fold_left_app, IH by lia. simpl.
    apply set_pol_step. lia.
Qed.

Lemma replicate_rows (n : nat) (row : list (list C)) (sig : list C) :
  length sig = n -> replicate n row = map (fun _ => row) sig.
Proof.
  intros <-. induction sig as [|s sig IH]; simpl; congruence.
Qed.

End GeneratorFacts.

(** ** The python backend of the generator front end *)

Section FrontEnd.
Context {C : Type} `{SampleOps C} `{Env C}.

Lemma fold_set_pol_all (p : nat) (sig : list C) :
  fold_left (fun out i_pol => set_pol i_pol sig out) (seq 0 p)
    (replicate (length sig) [replicate p czero])
  = map (fun s => [replicate p s]) sig.
Proof.
  rewrite (replicate_rows (length sig) _ sig eq_refl).
  rewrite fold_set_pol by lia.
  apply map_ext. intros s. now rewrite Nat.sub_diag, app_nil_r.
Qed.

Lemma plain_canonical_rest (n_bins : Z) (strs : list string) (n_pol : Z)
    (d : dtype) (backend : string) :
  Forall (fun s => plain s = true) strs ->
  plain backend = true ->
  plain (str_of_Z n_bins +:+ "." +:+ join "-" strs +:+ "."
         +:+ str_of_Z n_pol +:+ "." +:+ matlab_dtype_lookup d +:+ "."
         +:+ backend) = true.
Proof.
  intros Hs Hb.
  rewrite !plain_app, !plain_str_of_Z, plain_matlab_dtype_lookup, Hb.
  rewrite plain_join by (auto; reflexivity). reflexivity.
Qed.

(** The two [format] calls together. *)
Lemma format_canonical_base (func_name : string) (n_bins : Z)
    (strs : list string) (n_pol : Z) (d : dtype) (backend : string) :
  Forall (fun s => plain s = true) strs ->
  plain backend = true ->
  (output_base <- py_format output_base_template
     (assoc [("n_bins", VNum (PInt n_bins)); ("args", VStr (join "-" strs));
             ("n_pol", VNum (PInt n_pol));
             ("dtype", VStr (matlab_dtype_lookup d));
             ("backend", VStr backend)]) ;;
   py_format output_base (assoc [("func_name", VStr func_name)]))
  = Ok (canonical_base func_name n_bins strs n_pol d backend).
Proof.
  intros Hs Hb. rewrite format_output_base_template. cbn [rbind].
  now rewrite format_func_name by now apply plain_canonical_rest.
Qed.

(** What the python backend does when the arguments can be formatted
    and the signal function returns: the array is handed to the file
    format, and the file object is returned when that has dumped it. *)
Lemma generate_python_result (domain_name : string) (n_bins : Z)
    (args : list pynum) (header_template output_file_name : option string)
    (output_dir : string) (n_pol : Z) (d : dtype) (w : world)
    (strs : list string) (func_name : string)
    (func : Z -> list pynum -> dtype -> result (list C)) (sig : list C) :
  mapM fmt3 args = Ok strs ->
  func_lookup domain_name = Ok (func_name, func) ->
  func n_bins args d = Ok sig ->
  0 <= n_pol ->
  let name :=
    snd (_create_output_file_names output_file_name
           (canonical_base func_name n_bins strs n_pol d "python")) in
  let output_data := map (fun s => [replicate (Z.to_nat n_pol) s]) sig in
  _generate_test_vector "python" domain_name n_bins args header_template
    output_file_name output_dir n_pol d w
  = match dump_data (path_join output_dir [name]) output_data w with
    | (w', Ok _) =>
        (w', Ok (Some (DadaFile (path_join output_dir [name]) output_data)))
    | (w', Raise e) => (w', Raise e)
    end.
Proof.
  intros Hfmt Hfunc Hsig Hpol name output_data.
  unfold _generate_test_vector, bind, lift, ret.
  rewrite Hfmt, format_output_base_template.
  change (String.eqb "python" "matlab") with false.
  change (String.eqb "python" "python") with true.
  cbv iota. rewrite Hfunc. cbn [snd fst]. rewrite Hsig.
  unfold np_zeros3. destruct (n_pol <? 0) eqn:En; [lia|].
  rewrite format_func_name
    by (apply plain_canonical_rest; eauto using plain_mapM_fmt3).
  rewrite fold_set_pol_all.
  subst name output_data. unfold canonical_base.
  destruct output_file_name; reflexivity.
Qed.

Lemma func_lookup_inv (domain_name func_name : string)
    (func : Z -> list pynum -> dtype -> result (list C)) :
  func_lookup domain_name = Ok (func_name, func) ->
  (func_name = "time_domain_impulse" /\ func = call_time_domain_impulse) \/
  (func_name = "complex_sinusoid" /\ func = call_complex_sinusoid).
Proof.
  unfold func_lookup.
  destruct (String.eqb domain_name "time"); [intros [= <- <-]; auto|].
  destruct (String.eqb domain_name "freq"); [intros [= <- <-]; auto|].
  discriminate.
Qed.



End FrontEnd.


(** ** The default output name *)

Section CanonicalName.
Context {C : Type} `{SampleOps C} `{Env C}.

(** C6, as the code has it: with the arguments formatted to [strs]
    (three decimals each), the two [format] calls of either backend
    build [func_name.n_bins.args.n_pol.dtype.backend] with the
    arguments joined by [-]; without an explicit file name the data file
    gets [.dump] and the log file [.log]; and a run of the python
    backend, which needs the signal function of the domain to accept
    the arguments, hands the array to the file format under a path with
    that base name and returns the file object when it is dumped. *)
Theorem canonical_output_name (func_name : string) (n_bins : Z)
    (args : list pynum) (strs : list string) (n_pol : Z) (d : dtype)
    (backend : string) :
  mapM fmt3 args = Ok strs ->
  backend = "matlab" \/ backend = "python" ->
  let base :=
    func_name +:+ "." +:+ str_of_Z n_bins +:+ "." +:+ join "-" strs +:+ "."
    +:+ str_of_Z n_pol +:+ "." +:+ matlab_dtype_lookup d +:+ "." +:+ backend
  in
  (output_base <- py_format output_base_template
     (assoc [("n_bins", VNum (PInt n_bins)); ("args", VStr (join "-" strs));
             ("n_pol", VNum (PInt n_pol));
             ("dtype", VStr (matlab_dtype_lookup d));
             ("backend", VStr backend)]) ;;
   py_format output_base (assoc [("func_name", VStr func_name)]))
  = Ok base /\
  _create_output_file_names None base
  = (base, base +:+ ".log", base +:+ ".dump") /\
  forall (domain_name : string)
         (func : Z -> list pynum -> dtype -> result (list C))
         (sig : list C) (header_template : option string)
         (output_dir : string) (w : world),
    backend = "python" ->
    func_lookup domain_name = Ok (func_name, func) ->
    func n_bins args d = Ok sig ->
    0 <= n_pol ->
    exists path output_data,
      basename path = base +:+ ".dump" /\
      _generate_test_vector backend domain_name n_bins args header_template
        None output_dir n_pol d w
      = match dump_data path output_data w with
        | (w', Ok _) => (w', Ok (Some (DadaFile path output_data)))
        | (w', Raise e) => (w', Raise e)
        end.
Proof.
  intros Hfmt Hb base.
  assert (Hstrs : Forall (fun s => plain s = true) strs)
    by eauto using plain_mapM_fmt3.
  assert (Hpb : plain backend = true) by (destruct Hb as [->| ->]; reflexivity).
  split; [|split].
  - now apply format_canonical_base.
  - reflexivity.
  - intros domain_name func sig header_template output_dir w -> Hf Hs Hp.
    eexists _, _. split.
    2:{ apply (generate_python_result _ _ _ _ _ _ _ _ _ _ _ _ _
                 Hfmt Hf Hs Hp). }
    + cbn [snd _create_output_file_names].
      apply basename_path_join. subst base. unfold canonical_base.
      assert (Hfn : plain func_name = true)
        by (apply func_lookup_inv in Hf as [[-> _]|[-> _]]; reflexivity).
      rewrite !plain_app, Hfn, !plain_str_of_Z, plain_matlab_dtype_lookup.
      rewrite plain_join by (auto; reflexivity). reflexivity.
Qed.

End CanonicalName.

(** C6 at the frequency-domain arguments of the test, two polarizations,
    [complex64], python backend. *)
Lemma canonical_output_name_witness :
  exists w' df,
    _generate_test_vector "python" "freq" 1000 freq_domain_args None None "./"
      2 complex64 empty_world = (w', Ok (Some df)) /\
    basename (file_path df)
    = "complex_sinusoid.1000.0.100-0.785-0.100.2.single.python.dump".
Proof.
  assert (Hfmt : mapM fmt3 freq_domain_args = Ok ["0.100"; "0.785"; "0.100"])
    by reflexivity.
  destruct (canonical_output_name (C := sym) "complex_sinusoid" 1000
              freq_domain_args ["0.100"; "0.785"; "0.100"] 2 complex64
              "python" Hfmt (or_intror eq_refl)) as (_ & _ & Hrun).
  edestruct (Hrun "freq" call_complex_sinusoid) with
    (header_template := @None string) (output_dir := "./")
    (w := empty_world) as (path & output_data & Hbase & Hgen).
  - reflexivity.
  - reflexivity.
  - vm_compute. reflexivity.
  - lia.
  - assert (Hok : exists w' df,
               _generate_test_vector "python" "freq" 1000 freq_domain_args
                 None None "./" 2 complex64 empty_world = (w', Ok (Some df)))
      by (vm_compute; eexists _, _; reflexivity).
    destruct Hok as (w' & df & Hok). exists w', df. split; [exact Hok|].
    rewrite Hok in Hgen.
    destruct (dump_data path output_data empty_world) as [w'' [[]|e]];
      [|discriminate].
    injection Hgen as _ ->. exact Hbase.
Defined.

(** C6, the example of the specification: one argument [0.1] in the frequency
    domain.  [complex_sinusoid] needs [phases] too, so the python backend
    raises [TypeError] before any name is built, and no file is written. *)
Lemma freq_single_argument_raises :
  _generate_test_vector "python" "freq" 1000 [PFloat (lit 1 10)] None None
    "./" 2 complex64 empty_world = (empty_world, Raise TypeError)
  /\ ~ exists w' df,
         _generate_test_vector "python" "freq" 1000 [PFloat (lit 1 10)] None
           None "./" 2 complex64 empty_world = (w', Ok (Some df)) /\
         basename (file_path df)
         = "complex_sinusoid.1000.0.100.2.single.python.dump".
Proof.
  assert (E : _generate_test_vector "python" "freq" 1000 [PFloat (lit 1 10)]
                None None "./" 2 complex64 empty_world
              = (empty_world, Raise TypeError)) by reflexivity.
  split; [exact E|].
  intros (w' & df & Hr & _). rewrite E in Hr. discriminate.
Qed.

(** ** The cache lookup and the producer *)

Section ProducerFacts.
Context {C : Type} `{SampleOps C} `{Env C}.

Lemma path_exists_with_dirs (p : string) (w : world) :
  path_exists p (with_dirs p w) = true.
Proof.
  unfold path_exists, with_dirs. cbn [dirs].
  apply orb_true_intro. left. apply bool_decide_eq_true. set_solver.
Qed.

(** The two ways the generator starts: on a hit the constructor always
    raises, on a miss it creates the directory and suspends. *)
Lemma new_producer_hit (base_dir domain_name : string)
    (params : gmap string pynum) (w : world) (fmt sub_dir : string) :
  sub_dir_format_map domain_name = Ok fmt ->
  py_format fmt (kwargs_of params) = Ok sub_dir ->
  path_exists (path_join base_dir [domain_name; sub_dir]) w = true ->
  new_producer base_dir domain_name params w
  = (w, match read_file (path_join sub_dir [meta_data_file_name]) w with
        | Ok text => match json_load text with
                     | Ok _ => Raise StopIteration
                     | Raise e => Raise e
                     end
        | Raise e => Raise e
        end).
Proof.
  intros Hf Hs He.
  unfold new_producer, data_vector_producer, bind, lift.
  rewrite Hf, Hs, He.
  destruct (read_file _ w) as [text|e]; [|reflexivity]. cbn.
  destruct (json_load text); reflexivity.
Qed.

Lemma new_producer_miss (base_dir domain_name : string)
    (params : gmap string pynum) (w : world) (fmt sub_dir : string) :
  sub_dir_format_map domain_name = Ok fmt ->
  py_format fmt (kwargs_of params) = Ok sub_dir ->
  path_exists (path_join base_dir [domain_name; sub_dir]) w = false ->
  new_producer base_dir domain_name params w
  = if blocked (path_join base_dir [domain_name; sub_dir]) w
    then (w, Raise NotADirectoryError)
    else (with_dirs (path_join base_dir [domain_name; sub_dir]) w,
          Ok (Producer None base_dir domain_name params
                (AwaitGenerate (path_join base_dir [domain_name; sub_dir])
                               (VNum <$> params)))).
Proof.
  intros Hf Hs He.
  unfold new_producer, data_vector_producer, bind, lift, makedirs, blocked.
  rewrite Hf, Hs, He.
  now destruct (existsb _ _).
Qed.

(** A constructor that returns has taken the miss path. *)
Lemma new_producer_inv (base_dir domain_name : string)
    (params : gmap string pynum) (w w1 : world) (self : producer) :
  new_producer base_dir domain_name params w = (w1, Ok self) ->
  exists fmt sub_dir,
    sub_dir_format_map domain_name = Ok fmt /\
    py_format fmt (kwargs_of params) = Ok sub_dir /\
    path_exists (path_join base_dir [domain_name; sub_dir]) w = false /\
    blocked (path_join base_dir [domain_name; sub_dir]) w = false /\
    w1 = with_dirs (path_join base_dir [domain_name; sub_dir]) w /\
    self = Producer None base_dir domain_name params
             (AwaitGenerate (path_join base_dir [domain_name; sub_dir])
                            (VNum <$> params)).
Proof.
  intros Hn.
  destruct (sub_dir_format_map domain_name) as [fmt|e] eqn:Hf.
  2:{ unfold new_producer, data_vector_producer, bind, lift in Hn.
      rewrite Hf in Hn. discriminate. }
  destruct (py_format fmt (kwargs_of params)) as [sub_dir|e] eqn:Hs.
  2:{ unfold new_producer, data_vector_producer, bind, lift in Hn.
      rewrite Hf, Hs in Hn. discriminate. }
  destruct (path_exists (path_join base_dir [domain_name; sub_dir]) w)
    eqn:He.
  - rewrite (new_producer_hit _ _ _ _ _ _ Hf Hs He) in Hn.
    destruct (read_file _ w) as [text|e]; [|discriminate].
    destruct (json_load text); discriminate.
  - rewrite (new_producer_miss _ _ _ _ _ _ Hf Hs He) in Hn.
    destruct (blocked _ w) eqn:Hb; [discriminate|].
    injection Hn as <- <-. eauto 12.
Qed.

(** Once the first tuple has been sent nothing more can happen. *)
Lemma send_all_exhausted (self : producer) (tuples : list (list pyval))
    (w : world) :
  self_sink self = Exhausted ->
  send_all self tuples w
  = (w, (self, map (fun _ => Raise StopIteration) tuples)).
Proof.
  intros Hs. induction tuples as [|args tuples IH]; [reflexivity|].
  cbn [send_all map]. unfold send at 1. rewrite Hs, IH. reflexivity.
Qed.

Lemma send_all_await_generate (self : producer) (output_dir : string)
    (meta_data : gmap string pyval) (tuples : list (list pyval))
    (w : world) :
  self_sink self = AwaitGenerate output_dir meta_data ->
  exists self' rs,
    send_all self tuples w = (w, (self', rs)) /\
    self_meta_data self' = self_meta_data self /\
    length rs = length tuples /\
    Forall (fun r => exists e, r = Raise e) rs.
Proof.
  intros Hs. destruct tuples as [|args tuples].
  - exists self, []. repeat split; constructor.
  - cbn [send_all]. rewrite (send_await_generate _ _ _ _ _ Hs).
    rewrite send_all_exhausted by reflexivity.
    eexists _, _. split; [reflexivity|]. cbn [length].
    rewrite length_map. repeat split.
    constructor; [eauto|]. apply Forall_forall. intros r Hin.
    apply list_elem_of_In, in_map_iff in Hin as (? & <- & _). eauto.
Qed.

End ProducerFacts.

Section Sequencer.
Context {C : Type} `{SampleOps C} `{Env C}.

(** C2, what the code does: when the cache directory
    [base_dir/domain/sub_dir] exists, both lookups open
    [sub_dir/meta.json], a path relative to the working directory and
    not inside [base_dir/domain]; with no file there they raise
    [FileNotFoundError], whatever the cache directory holds. *)
Theorem lookup_reads_outside_cache_directory (base_dir domain_name : string)
    (params : gmap string pynum) (w : world) (fmt sub_dir : string) :
  sub_dir_format_map domain_name = Ok fmt ->
  py_format fmt (kwargs_of params) = Ok sub_dir ->
  path_exists (path_join base_dir [domain_name; sub_dir]) w = true ->
  files w !! path_join sub_dir [meta_data_file_name] = None ->
  find_existing_test_data base_dir domain_name (PDict params) w
  = (w, Raise FileNotFoundError) /\
  new_producer base_dir domain_name params w = (w, Raise FileNotFoundError).
Proof.
  intros Hf Hs He Hn. split.
  - unfold find_existing_test_data, bind, lift.
    rewrite Hf, Hs, He. unfold read_file. rewrite Hn. reflexivity.
  - rewrite (new_producer_hit _ _ _ _ _ _ Hf Hs He).
    unfold read_file. rewrite Hn. reflexivity.
Qed.

(** The lookup of [data_gen/util.py] answers [None] when the cache
    directory does not exist. *)
Lemma find_existing_test_data_absent (base_dir domain_name : string)
    (params : gmap string pynum) (w : world) (fmt sub_dir : string) :
  sub_dir_format_map domain_name = Ok fmt ->
  py_format fmt (kwargs_of params) = Ok sub_dir ->
  path_exists (path_join base_dir [domain_name; sub_dir]) w = false ->
  find_existing_test_data base_dir domain_name (PDict params) w
  = (w, Ok None).
Proof.
  intros Hf Hs He. unfold find_existing_test_data, bind, lift.
  rewrite Hf, Hs, He. reflexivity.
Qed.

(** C4, what the code does: whatever tuple is sent first, the call of
    [generate_test_vector] with [output_dir] and [n_pol] fails (or the
    tuple is empty), before any generator is chosen or run: the world
    is as the constructor left it and the generator is finished. *)
Theorem first_send_raises_before_generating (base_dir domain_name : string)
    (params : gmap string pynum) (w w1 : world) (self : producer)
    (args : list pyval) :
  new_producer base_dir domain_name params w = (w1, Ok self) ->
  send self args w1
  = (w1, (with_sink self None Exhausted,
          Raise (match args with [] => IndexError | _ => TypeError end))).
Proof.
  intros Hn.
  apply new_producer_inv in Hn as (fmt & sub_dir & _ & _ & _ & _ & _ & ->).
  now apply send_await_generate
    with (output_dir := path_join base_dir [domain_name; sub_dir])
         (meta_data := VNum <$> params).
Qed.


(** C1, what the code does: after a miss no sequence of tuples sets
    [meta_data] or changes the world the constructor left, in which no
    file was written; and the same request made again finds the
    directory and raises. *)
Theorem miss_leaves_no_record (base_dir domain_name : string)
    (params : gmap string pynum) (w w1 : world) (self : producer)
    (tuples : list (list pyval)) :
  new_producer base_dir domain_name params w = (w1, Ok self) ->
  exists self' rs e,
    send_all self tuples w1 = (w1, (self', rs)) /\
    self_meta_data self' = None /\
    length rs = length tuples /\
    Forall (fun r => exists e', r = Raise e') rs /\
    files w1 = files w /\
    new_producer base_dir domain_name params w1 = (w1, Raise e).
Proof.
  intros Hn.
  apply new_producer_inv in Hn
    as (fmt & sub_dir & Hf & Hs & He & _ & -> & ->).
  destruct (send_all_await_generate
              (Producer None base_dir domain_name params
                 (AwaitGenerate (path_join base_dir [domain_name; sub_dir])
                    (VNum <$> params)))
              _ _ tuples
              (with_dirs (path_join base_dir [domain_name; sub_dir]) w)
              eq_refl) as (self' & rs & Hsend & Hmeta & Hlen & Hrs).
  pose proof (new_producer_hit base_dir domain_name params _ _ _ Hf Hs
                (path_exists_with_dirs _ w)) as Hhit.
  destruct (read_file (path_join sub_dir [meta_data_file_name])
              (with_dirs (path_join base_dir [domain_name; sub_dir]) w))
    as [text|e].
  - destruct (json_load text) as [m|e]; eauto 12.
  - eauto 12.
Qed.


End Sequencer.

(** ** The properties on concrete requests *)

(** C2 on a cached request: the record is in the cache directory, and
    both lookups raise [FileNotFoundError]. *)
Lemma lookup_reads_outside_cache_directory_witness :
  files cached_world !! "data/time/o-0.100_w-1.000/meta.json" = Some "{}" /\
  find_existing_test_data "data" "time" (PDict time_params) cached_world
  = (cached_world, Raise FileNotFoundError) /\
  new_producer "data" "time" time_params cached_world
  = (cached_world, Raise FileNotFoundError).
Proof.
  split; [reflexivity|].
  apply (lookup_reads_outside_cache_directory "data" "time" time_params
           cached_world "o-{offset:.3f}_w-{width:.3f}" "o-0.100_w-1.000");
    reflexivity.
Defined.

(** C4 on the first documented call after a miss. *)
Lemma first_send_raises_before_generating_witness :
  exists w1 self,
    new_producer "data" "time" time_params empty_world = (w1, Ok self) /\
    send self [VNum (PInt 2); VNum (PInt 1000); VDtype float32] w1
    = (w1, (with_sink self None Exhausted, Raise TypeError)).
Proof.
  eexists _, _. split; [reflexivity|].
  apply (first_send_raises_before_generating "data" "time" time_params
           empty_world _ _
           [VNum (PInt 2); VNum (PInt 1000); VDtype float32]).
  reflexivity.
Defined.

(** C1 on the documented calls after a miss. *)
Lemma miss_leaves_no_record_witness :
  exists w1 self self' rs e,
    new_producer "data" "time" time_params empty_world = (w1, Ok self) /\
    send_all self documented_tuples w1 = (w1, (self', rs)) /\
    self_meta_data self' = None /\
    length rs = length documented_tuples /\
    Forall (fun r => exists e', r = Raise e') rs /\
    files w1 = files empty_world /\
    new_producer "data" "time" time_params w1 = (w1, Raise e).
Proof.
  eexists _, _.
  destruct (miss_leaves_no_record "data" "time" time_params empty_world
              _ _ documented_tuples eq_refl) as (self' & rs & e & Hrun).
  exists self', rs, e. split; [reflexivity|exact Hrun].
Defined.

(** The documented use, start to end: the three calls raise [TypeError],
    [StopIteration] and [StopIteration], no command is run and no file
    written, [meta_data] stays [None], and the same request made again
    raises [FileNotFoundError]. *)
Example documented_use :
  exists w1 self self',
    new_producer "data" "time" time_params empty_world = (w1, Ok self) /\
    send_all self documented_tuples w1
    = (w1, (self', [Raise TypeError; Raise StopIteration;
                    Raise StopIteration])) /\
    self_meta_data self' = None /\
    files w1 = ∅ /\ trace w1 = [] /\
    new_producer "data" "time" time_params w1 = (w1, Raise FileNotFoundError).
Proof.
  eexists _, _, _. repeat split; reflexivity.
Qed.


(** ** Impulses *)

Lemma float_nonneg_round_aux (m e : Z) (l : location) :
  float_nonneg (binary_round_aux prec emax false m e l) = true.
Proof.
  unfold binary_round_aux.
  destruct (shr_fexp prec emax m e l) as [mrs' e'].
  destruct (shr_fexp prec emax _ e' loc_Exact) as [mrs'' e''].
  destruct (shr_m mrs''); try reflexivity.
  destruct (e'' <=? emax - prec); reflexivity.
Qed.

Lemma float_nonneg_of_Z (n : Z) (y : float) :
  0 <= n -> float_of_Z n = Ok y -> float_nonneg y = true.
Proof.
  intros Hn. unfold float_of_Z.
  destruct n as [|p|p]; [| |lia].
  - intros [= <-]. reflexivity.
  - pose proof (float_nonneg_round_aux) as Hr.
    unfold binary_normalize, binary_round.
    destruct (shl_align p 0 _) as [mz ez]. specialize (Hr (Z.pos mz) ez loc_Exact).
    destruct (binary_round_aux prec emax false (Z.pos mz) ez loc_Exact);
      try discriminate; now intros [= <-].
Qed.

Lemma float_nonneg_mul (x y : float) :
  float_nonneg x = true -> float_nonneg y = true ->
  float_nonneg (fmul x y) = true.
Proof.
  destruct x as [sx|sx| |sx mx ex], y as [sy|sy| |sy my ey]; simpl;
    try reflexivity; intros Hx Hy;
    try (apply negb_true_iff in Hx; subst sx);
    try (apply negb_true_iff in Hy; subst sy);
    try reflexivity.
  apply float_nonneg_round_aux.
Qed.

Lemma int_of_float_floor (x : float) :
  float_nonneg x = true -> int_of_float x = floor_of_float x.
Proof.
  destruct x as [s|s| |s m e]; simpl; try reflexivity.
  intros Hs. apply negb_true_iff in Hs. subst s. simpl. f_equal.
  destruct (0 <=? e) eqn:He.
  - apply Z.shiftl_mul_pow2. lia.
  - apply Z.shiftr_div_pow2. lia.
Qed.

Lemma int_of_float_nonneg (x : float) (k : Z) :
  float_nonneg x = true -> int_of_float x = Ok k -> 0 <= k.
Proof.
  destruct x as [s|s| |s m e]; simpl; try discriminate.
  - intros _ [= <-]. lia.
  - intros Hs. apply negb_true_iff in Hs. subst s. intros [= <-].
    destruct (0 <=? e) eqn:He.
    + apply Z.shiftl_nonneg. lia.
    + apply Z.shiftr_nonneg. lia.
Qed.

(** For an offset and a size that are not negative, [int] is [floor]
    and the first sample is not negative. *)
Lemma offset_of_floor (n : Z) (o : pynum) :
  0 <= n -> num_nonneg o = true -> offset_of n o = floor_offset n o.
Proof.
  intros Hn Ho. unfold offset_of, floor_offset, num_mul_int.
  destruct o as [z|x]; simpl; [reflexivity|].
  destruct (float_of_Z n) as [y|e] eqn:Hy; simpl; [|reflexivity].
  apply int_of_float_floor, float_nonneg_mul; eauto using float_nonneg_of_Z.
Qed.

Lemma offset_of_nonneg (n : Z) (o : pynum) (k : Z) :
  0 <= n -> num_nonneg o = true -> offset_of n o = Ok k -> 0 <= k.
Proof.
  intros Hn Ho. unfold offset_of, num_mul_int.
  destruct o as [z|x]; simpl.
  - intros [= <-]. apply Z.leb_le in Ho. nia.
  - destruct (float_of_Z n) as [y|e] eqn:Hy; simpl; [|discriminate].
    apply int_of_float_nonneg, float_nonneg_mul;
      eauto using float_nonneg_of_Z.
Qed.


Section ImpulseFacts.
Context {C : Type} `{SampleOps C}.

Lemma lookup_fill_from (i0 lo hi : Z) (v : C) (l : list C) (j : nat) :
  fill_from i0 lo hi v l !! j
  = (fun x => if (lo <=? i0 + Z.of_nat j) && (i0 + Z.of_nat j <? hi)
              then v else x) <$> l !! j.
Proof.
  revert i0 j. induction l as [|x l IH]; intros i0 j; [reflexivity|].
  destruct j as [|j]; simpl.
  - now rewrite Z.add_0_r.
  - rewrite IH. now replace (i0 + 1 + Z.of_nat j) with (i0 + Z.pos (Pos.of_succ_nat j)) by lia.
Qed.

Lemma lookup_slice_assign (start stop : Z) (v : C) (l : list C) (j : nat) :
  slice_assign start stop v l !! j
  = (fun x => if in_slice (Z.of_nat (length l)) start stop (Z.of_nat j)
              then v else x) <$> l !! j.
Proof. unfold slice_assign. now rewrite lookup_fill_from. Qed.

Lemma length_paint (kws : list (Z * Z)) (sig : list C) :
  length (paint kws sig) = length sig.
Proof.
  revert sig. induction kws as [|kw kws IH]; intros sig; [reflexivity|].
  simpl. now rewrite IH, length_slice_assign.
Qed.

Lemma impulse_loop_paint (n : Z) (offsets : list pynum) (widths ks : list Z)
    (sig : list C) :
  mapM (offset_of n) offsets = Ok ks ->
  (length offsets <= length widths)%nat ->
  impulse_loop n offsets (map PInt widths) sig = Ok (paint (zip ks widths) sig).
Proof.
  revert widths ks sig. induction offsets as [|o offsets IH];
    intros widths ks sig Hks Hlen.
  - injection Hks as <-. reflexivity.
  - simpl in Hks. unfold offset_of at 1 in Hks. simpl.
    destruct (num_mul_int o n) as [x|e]; simpl in *; [|discriminate].
    destruct (py_int x) as [k|e]; simpl in *; [|discriminate].
    destruct (mapM (offset_of n) offsets) as [ks'|e] eqn:Hks';
      simpl in *; [|discriminate].
    injection Hks as <-.
    destruct widths as [|w widths]; simpl in *; [lia|].
    apply IH; [reflexivity|lia].
Qed.

Lemma lookup_paint (kws : list (Z * Z)) (sig : list C) (j : nat) :
  paint kws sig !! j
  = (fun x => if existsb (fun kw => in_slice (Z.of_nat (length sig)) (fst kw)
                                      (fst kw + snd kw) (Z.of_nat j)) kws
              then cone else x) <$> sig !! j.
Proof.
  revert sig. induction kws as [|kw kws IH]; intros sig.
  - simpl. now destruct (sig !! j).
  - simpl. rewrite IH, length_slice_assign, lookup_slice_assign.
    destruct (sig !! j) as [x|]; simpl; [|reflexivity].
    destruct (in_slice _ (fst kw) _ _); simpl; [|reflexivity].
    now destruct (existsb _ kws).
Qed.

(** With a first sample and a width that are not negative, the slice is
    the interval. *)
Lemma in_slice_nonneg (n k w t : Z) :
  0 <= k -> 0 <= w -> 0 <= t < n ->
  in_slice n k (k + w) t = (k <=? t) && (t <? k + w).
Proof.
  intros Hk Hw Ht. unfold in_slice, adjust.
  destruct (k <? 0) eqn:E1; [lia|].
  destruct (k + w <? 0) eqn:E2; [lia|].
  destruct (k <=? t) eqn:E3, (t <? k + w) eqn:E4;
    destruct (Z.min k n <=? t) eqn:E5, (t <? Z.min (k + w) n) eqn:E6;
    try reflexivity; lia.
Qed.

Lemma existsb_in_slice_nonneg (n t : Z) (kws : list (Z * Z)) :
  Forall (fun kw => 0 <= fst kw /\ 0 <= snd kw) kws -> 0 <= t < n ->
  existsb (fun kw => in_slice n (fst kw) (fst kw + snd kw) t) kws
  = in_intervals kws t.
Proof.
  intros Hall Ht. induction Hall as [|kw kws [Hk Hw] _ IH]; [reflexivity|].
  simpl. now rewrite IH, in_slice_nonneg.
Qed.

(** What the loop leaves, in Python's slices. *)
Lemma time_domain_impulse_paint (n : Z) (g : gen_args) (d : dtype)
    (offsets : list pynum) (widths ks : list Z) :
  0 <= n ->
  as_lists g = (offsets, map PInt widths) ->
  (length offsets <= length widths)%nat ->
  mapM (offset_of n) offsets = Ok ks ->
  time_domain_impulse n g d
  = Ok (paint (zip ks widths) (replicate (Z.to_nat n) czero)).
Proof.
  intros Hn Hg Hlen Hks. unfold time_domain_impulse, np_zeros.
  rewrite Hg. destruct (n <? 0) eqn:E; [lia|]. simpl.
  now apply impulse_loop_paint.
Qed.

End ImpulseFacts.

Lemma mapM_Forall2 {A B} (f : A -> result B) (l : list A) (l' : list B) :
  mapM f l = Ok l' -> Forall2 (fun a b => f a = Ok b) l l'.
Proof.
  revert l'. induction l as [|a l IH]; simpl; intros l'.
  - intros [= <-]. constructor.
  - destruct (f a) as [b|] eqn:Hb; simpl; [|discriminate].
    destruct (mapM f l) as [bs|]; simpl; [|discriminate].
    intros [= <-]. constructor; auto.
Qed.

Lemma mapM_ext_Forall {A B} (f g : A -> result B) (l : list A) :
  Forall (fun a => f a = g a) l -> mapM f l = mapM g l.
Proof.
  induction 1 as [|a l Ha _ IH]; simpl; [reflexivity|].
  now rewrite Ha, IH.
Qed.

Section Impulse.
Context {C : Type} `{SampleOps C}.

(** C8, as the code has it: for a size, offsets and widths that are not
    negative, a width for each offset, and [ks] the values
    [floor(offsets[i]*n)], the result has [n] samples, one at the indices
    of every interval [[ks[i], ks[i] + widths[i])] and zero elsewhere;
    where intervals overlap the sample is still one (a later impulse is
    written over an earlier one). *)
Theorem time_domain_impulse_places_ones (n : Z) (g : gen_args) (d : dtype)
    (offsets : list pynum) (widths ks : list Z) :
  0 <= n ->
  as_lists g = (offsets, map PInt widths) ->
  Forall (fun o => num_nonneg o = true) offsets ->
  Forall (fun w => 0 <= w) widths ->
  (length offsets <= length widths)%nat ->
  mapM (floor_offset n) offsets = Ok ks ->
  exists sig, time_domain_impulse n g d = Ok sig /\
              claimed_impulse n ks widths sig.
Proof.
  intros Hn Hg Hoff Hw Hlen Hks.
  assert (Hks' : mapM (offset_of n) offsets = Ok ks).
  { rewrite <- Hks. apply mapM_ext_Forall.
    eapply Forall_impl; [exact Hoff|]. intros o Ho.
    now apply offset_of_floor. }
  assert (Hpos : Forall (fun k => 0 <= k) ks).
  { apply mapM_Forall2 in Hks'. clear -Hks' Hoff Hn.
    induction Hks' as [|o k offsets ks Hk _ IH]; [constructor|].
    inversion Hoff; subst. constructor; eauto using offset_of_nonneg. }
  assert (Hkws : Forall (fun kw => 0 <= fst kw /\ 0 <= snd kw)
                        (zip ks widths)).
  { apply Forall_forall. intros [k w] Hin. simpl.
    rewrite Forall_forall in Hpos, Hw.
    split; [eapply Hpos, elem_of_zip_l|eapply Hw, elem_of_zip_r]; eauto. }
  exists (paint (zip ks widths) (replicate (Z.to_nat n) czero)). split.
  - now apply time_domain_impulse_paint with (offsets := offsets).
  - split.
    + now rewrite length_paint, length_replicate.
    + intros t Ht. rewrite lookup_paint, length_replicate.
      rewrite lookup_replicate_2 by lia. simpl.
      rewrite !Z2Nat.id by lia.
      now rewrite existsb_in_slice_nonneg.
Qed.

End Impulse.

(** C8 at [time_domain_impulse(10, [0.2], [3])]. *)
Lemma time_domain_impulse_places_ones_witness :
  exists sig,
    time_domain_impulse 10 (Lists [PFloat (lit 2 10)] [PInt 3]) complex64
    = Ok sig /\
    claimed_impulse 10 [2] [3] sig.
Proof.
  apply (time_domain_impulse_places_ones 10
           (Lists [PFloat (lit 2 10)] [PInt 3]) complex64
           [PFloat (lit 2 10)] [3] [2]).
  - lia.
  - reflexivity.
  - repeat constructor.
  - repeat constructor; lia.
  - simpl. lia.
  - reflexivity.
Defined.

(** The impulse of the specification's example, sample by sample. *)
Example impulse_example :
  time_domain_impulse 10 (Lists [PFloat (lit 2 10)] [PInt 3]) complex64
  = Ok [SZero; SZero; SOne; SOne; SOne; SZero; SZero; SZero; SZero; SZero].
Proof. reflexivity. Qed.

(** Two overlapping impulses: the samples they share are one, not two. *)
Example impulse_overlap :
  time_domain_impulse 10
    (Lists [PFloat (lit 2 10); PFloat (lit 3 10)] [PInt 3; PInt 3]) complex64
  = Ok [SZero; SZero; SOne; SOne; SOne; SOne; SZero; SZero; SZero; SZero].
Proof. reflexivity. Qed.

(** C8, a negative offset: for [time_domain_impulse(10, [-0.25], [1])]
    the floor of [-2.5] is [-3], but [int] gives [-2] and the slice
    [sig[-2:-1]] is sample 8; the interval [[-3, -2)] of the specification holds
    no sample at all. *)
Lemma negative_offset_counts_from_end :
  floor_offset 10 (PFloat (lit (-25) 100)) = Ok (-3) /\
  offset_of 10 (PFloat (lit (-25) 100)) = Ok (-2) /\
  time_domain_impulse 10 (Lists [PFloat (lit (-25) 100)] [PInt 1]) complex64
  = Ok [SZero; SZero; SZero; SZero; SZero; SZero; SZero; SZero; SOne; SZero]
  /\
  ~ claimed_impulse 10 [-3] [1]
      [SZero; SZero; SZero; SZero; SZero; SZero; SZero; SZero; SOne; SZero].
Proof.
  repeat split; try reflexivity.
  intros [_ Hc]. specialize (Hc 8 ltac:(lia)). discriminate Hc.
Qed.

(** ** Tones *)

(** [int] of a float with a fraction is the quotient that truncates
    toward zero. *)
Lemma int_of_float_truncates (s : bool) (m : positive) (e : Z) :
  e < 0 ->
  int_of_float (S754_finite s m e)
  = Ok (Z.quot (cond_Zopp s (Zpos m)) (2 ^ (- e))).
Proof.
  intros He. simpl. destruct (0 <=? e) eqn:E; [lia|]. f_equal.
  rewrite Z.shiftr_div_pow2 by lia.
  assert (Hp : 0 < 2 ^ (- e)) by (apply Z.pow_pos_nonneg; lia).
  destruct s; simpl.
  - change (Z.neg m) with (- Z.pos m). rewrite Z.quot_opp_l by lia.
    f_equal. symmetry. apply Z.quot_div_nonneg; lia.
  - symmetry. apply Z.quot_div_nonneg; lia.
Qed.

Section ToneFacts.
Context {C : Type} `{SampleOps C}.

Lemma lookup_add_from (d : dtype) (t0 : Z) (x : Z -> C) (sig : list C)
    (j : nat) :
  add_from d t0 x sig !! j
  = (fun s => acc d s (x (t0 + Z.of_nat j))) <$> sig !! j.
Proof.
  revert t0 j. induction sig as [|s sig IH]; intros t0 j; [reflexivity|].
  destruct j as [|j]; simpl.
  - now rewrite Z.add_0_r.
  - rewrite IH.
    now replace (t0 + 1 + Z.of_nat j) with (t0 + Z.pos (Pos.of_succ_nat j))
      by lia.
Qed.

Lemma length_mix (d : dtype) (wps : list (float * float)) (sig : list C) :
  length (mix d wps sig) = length sig.
Proof.
  revert sig. induction wps as [|wp wps IH]; intros sig; [reflexivity|].
  simpl. now rewrite IH, length_add_from.
Qed.

Lemma lookup_mix (d : dtype) (wps : list (float * float)) (sig : list C)
    (j : nat) :
  mix d wps sig !! j = superpose d wps (Z.of_nat j) <$> sig !! j.
Proof.
  revert sig. induction wps as [|wp wps IH]; intros sig.
  - simpl. now destruct (sig !! j).
  - simpl. rewrite IH, lookup_add_from.
    now destruct (sig !! j).
Qed.

(** The loop when every number converts to a double: tone [i] has the
    coefficient of the bin [int(n*freqs[i])] and the phase [phases[i]]. *)
Lemma sinusoid_loop_mix (n : Z) (freqs phases : list pynum)
    (bin_offset : pynum) (d : dtype) (ks : list Z) (ws phs : list float)
    (sig : list C) :
  is_complex d = true ->
  mapM (bin_of n) freqs = Ok ks ->
  mapM (coeff_of_bin n bin_offset) ks = Ok ws ->
  (length freqs <= length phases)%nat ->
  mapM float_of_num (take (length freqs) phases) = Ok phs ->
  sinusoid_loop n freqs phases bin_offset d sig
  = Ok (mix d (zip ws phs) sig).
Proof.
  intros Hd. revert phases ks ws phs sig.
  induction freqs as [|f freqs IH]; intros phases ks ws phs sig Hks Hws Hlen Hphs.
  - injection Hks as <-. injection Hws as <-. reflexivity.
  - simpl in Hks. unfold bin_of at 1 in Hks. simpl.
    destruct (int_mul_num n f) as [x|e]; simpl in *; [|discriminate].
    destruct (py_int x) as [k|e]; simpl in *; [|discriminate].
    destruct (mapM (bin_of n) freqs) as [ks'|e] eqn:Hks';
      simpl in *; [|discriminate].
    injection Hks as <-. simpl in Hws.
    destruct (coeff_of_bin n bin_offset k) as [w|e]; simpl in *;
      [|discriminate].
    destruct (mapM (coeff_of_bin n bin_offset) ks') as [ws'|e] eqn:Hws';
      simpl in *; [|discriminate].
    injection Hws as <-.
    destruct phases as [|p phases]; simpl in *; [lia|].
    destruct (float_of_num p) as [ph|e]; simpl in *; [|discriminate].
    destruct (mapM float_of_num (take (length freqs) phases))
      as [phs'|e] eqn:Hphs'; simpl in *; [|discriminate].
    injection Hphs as <-. rewrite Hd.
    apply (IH phases ks' ws' phs'); auto. lia.
Qed.

(** What [complex_sinusoid] returns for a complex dtype when every
    number converts. *)
Lemma complex_sinusoid_mix (n : Z) (g : gen_args) (bin_offset : pynum)
    (d : dtype) (freqs phases : list pynum) (ks : list Z)
    (ws phs : list float) :
  0 <= n -> is_complex d = true ->
  as_lists g = (freqs, phases) ->
  (length freqs <= length phases)%nat ->
  mapM (bin_of n) freqs = Ok ks ->
  mapM (coeff_of_bin n bin_offset) ks = Ok ws ->
  mapM float_of_num (take (length freqs) phases) = Ok phs ->
  complex_sinusoid n g bin_offset d
  = Ok (mix d (zip ws phs) (replicate (Z.to_nat n) czero)).
Proof.
  intros Hn Hd Hg Hlen Hks Hws Hphs. unfold complex_sinusoid, np_zeros.
  rewrite Hg. destruct (n <? 0) eqn:E; [lia|]. simpl.
  now apply sinusoid_loop_mix with (ks := ks).
Qed.

Lemma lookup_mix_zeros (n : Z) (d : dtype) (wps : list (float * float))
    (t : Z) :
  0 <= t < n ->
  mix d wps (replicate (Z.to_nat n) czero) !! Z.to_nat t
  = Some (superpose d wps t czero).
Proof.
  intros Ht. rewrite lookup_mix, lookup_replicate_2 by lia.
  simpl. now rewrite Z2Nat.id by lia.
Qed.

(** C7, as the code has it: for a positive size, a complex dtype and a
    phase for each frequency, the numbers converting to doubles, sample
    [t] is the sum over [i], in the order of the list, of
    [exp(1j*(w_i*t + ph_i))], where [w_i] is the double
    [2*pi*(k_i + bin_offset)/n] of the bin [k_i = int(n*freqs[i])]
    (truncated toward zero, not rounded) and [ph_i] the double of
    [phases[i]]; a scalar frequency and phase count as lists of one. *)
Theorem complex_sinusoid_superposes (n : Z) (g : gen_args)
    (bin_offset : pynum) (d : dtype) (freqs phases : list pynum)
    (ks : list Z) (ws phs : list float) :
  0 < n -> is_complex d = true ->
  as_lists g = (freqs, phases) ->
  (length freqs <= length phases)%nat ->
  mapM (bin_of n) freqs = Ok ks ->
  mapM (coeff_of_bin n bin_offset) ks = Ok ws ->
  mapM float_of_num (take (length freqs) phases) = Ok phs ->
  exists sig,
    complex_sinusoid n g bin_offset d = Ok sig /\
    length sig = Z.to_nat n /\
    forall t, 0 <= t < n ->
      sig !! Z.to_nat t
      = Some (fold_left
                (fun s wp =>
                   acc d s (exp_1j (fadd (fmul (fst wp) (float_of_index t))
                                         (snd wp))))
                (zip ws phs) czero).
Proof.
  intros Hn Hd Hg Hlen Hks Hws Hphs. eexists. split; [|split].
  - apply (complex_sinusoid_mix n g bin_offset d freqs phases ks ws phs);
      auto. lia.
  - now rewrite length_mix, length_replicate.
  - intros t Ht. now apply lookup_mix_zeros.
Qed.

End ToneFacts.

(** C7 at [complex_sinusoid(8, 0.25, 0.0)], scalars for lists of one:
    the bin is 2, the coefficient the double of [pi/2]. *)
Lemma complex_sinusoid_superposes_witness :
  exists sig,
    complex_sinusoid 8 (Scalars (PFloat (lit 1 4)) (PFloat (S754_zero false)))
      (PFloat (S754_zero false)) complex64 = Ok sig /\
    length sig = 8%nat /\
    forall t, 0 <= t < 8 ->
      sig !! Z.to_nat t
      = Some (SAcc complex64 SZero
                (SExp (fadd (fmul (S754_finite false 7074237752028440 (-52))
                                  (float_of_index t))
                            (S754_zero false)))).
Proof.
  exact (complex_sinusoid_superposes (C := sym) 8
           (Scalars (PFloat (lit 1 4)) (PFloat (S754_zero false)))
           (PFloat (S754_zero false)) complex64
           [PFloat (lit 1 4)] [PFloat (S754_zero false)] [2]
           [S754_finite false 7074237752028440 (-52)] [S754_zero false]
           ltac:(lia) eq_refl eq_refl ltac:(simpl; lia) eq_refl eq_refl
           eq_refl).
Defined.

(** An [int] past the largest double: in
    [complex_sinusoid(8, [10**400], [0.0])] the bin [8*10**400] meets
    the float [bin_offset], and the function raises [OverflowError]. *)
Example huge_bin_overflows :
  complex_sinusoid (C := sym) 8 (Lists [PInt (10 ^ 400)]
                                       [PFloat (S754_zero false)])
    (PFloat (S754_zero false)) complex64
  = Raise OverflowError.
Proof. vm_compute. reflexivity. Qed.

(** The doubles of [pi/2] and [pi] as real numbers. *)
Lemma half_pi_bounds :
  (0 < float_R (S754_finite false 7074237752028440 (-52)) < 2)%R /\
  float_R (S754_finite false 7074237752028440 (-51))
  = (2 * float_R (S754_finite false 7074237752028440 (-52)))%R.
Proof.
  unfold float_R. 
  assert (E52 : powerRZ 2 (-52) = (/ IZR (2 ^ 52))%R).
  { change (-52) with (- Z.of_nat 52). rewrite powerRZ_neg'.
    now rewrite <- pow_powerRZ, pow_IZR. }
  assert (E51 : powerRZ 2 (-51) = (/ IZR (2 ^ 51))%R).
  { change (-51) with (- Z.of_nat 51). rewrite powerRZ_neg'.
    now rewrite <- pow_powerRZ, pow_IZR. }
  rewrite E52, E51.
  change (2 ^ 52) with 4503599627370496. change (2 ^ 51) with 2251799813685248.
  split; [split|]; lra.
Qed.

(** C7, the bin is not the nearest one: for
    [complex_sinusoid(4, [0.4375], [0.0])] the product is [1.75], whose
    nearest integer is 2, and the code uses bin 1.  Sample 1 is then
    [exp(1j*x)] at the double [x] of [pi/2], where the specification has the
    double of [pi]; the real parts of the two differ. *)
Lemma truncated_bin_is_not_nearest :
  nearest_bin 4 (PFloat (lit 7 16)) = Ok 2 /\
  bin_of 4 (PFloat (lit 7 16)) = Ok 1 /\
  exists sig : list (R * R),
    complex_sinusoid 4 (Lists [PFloat (lit 7 16)] [PFloat (S754_zero false)])
      (PFloat (S754_zero false)) complex128 = Ok sig /\
    ~ claimed_sinusoid 4 [2] [PFloat (S754_zero false)]
        (PFloat (S754_zero false)) complex128 sig.
Proof.
  split; [reflexivity|]. split; [reflexivity|].
  eexists. split.
  - apply (complex_sinusoid_mix 4 _ _ _ [PFloat (lit 7 16)]
             [PFloat (S754_zero false)] [1]
             [S754_finite false 7074237752028440 (-52)] [S754_zero false]);
      [lia|reflexivity|reflexivity|simpl; lia|reflexivity|reflexivity
      |reflexivity].
  - intros (ws & phs & Hws & Hphs & _ & Hc).
    assert (Ews : ws = [S754_finite false 7074237752028440 (-51)])
      by (vm_compute in Hws; congruence).
    assert (Ephs : phs = [S754_zero false])
      by (vm_compute in Hphs; congruence).
    subst ws phs.
    specialize (Hc 1 ltac:(lia)).
    rewrite lookup_mix_zeros in Hc by lia.
    apply (f_equal (fun o : option (R * R) =>
                      match o with Some s => fst s | None => 0%R end)) in Hc.
    cbn [superpose fold_left zip zip_with fst snd] in Hc.
    change (fadd (fmul (S754_finite false 7074237752028440 (-52))
                       (float_of_index 1)) (S754_zero false))
      with (S754_finite false 7074237752028440 (-52)) in Hc.
    change (fadd (fmul (S754_finite false 7074237752028440 (-51))
                       (float_of_index 1)) (S754_zero false))
      with (S754_finite false 7074237752028440 (-51)) in Hc.
    cbn [acc exp_1j real_ops czero fst snd] in Hc. rename Hc into Hre.
    destruct half_pi_bounds as [[Hlo Hhi] Hdbl].
    rewrite Hdbl, cos_2a_cos in Hre.
    set (x := float_R (S754_finite false 7074237752028440 (-52))) in *.
    pose proof PI2_3_2 as Hpi. pose proof PI_4 as Hpi4.
    assert (H1 : (cos x < cos 0)%R)
      by (apply cos_decreasing_1; lra).
    assert (H2 : (cos (2 * (PI / 3)) < cos x)%R)
      by (apply cos_decreasing_1; lra).
    rewrite cos_0 in H1. rewrite cos_2PI3 in H2. nra.
Qed.

(** * Further properties of the code *)

(** ** The impulse generator on every input *)

Section ImpulseOutcome.
Context {C : Type} `{SampleOps C}.

Lemma impulse_loop_short (n : Z) (offsets : list pynum) (widths ks : list Z)
    (sig : list C) :
  mapM (offset_of n) offsets = Ok ks ->
  (length widths < length offsets)%nat ->
  impulse_loop n offsets (map PInt widths) sig = Raise IndexError.
Proof.
  revert widths ks sig. induction offsets as [|o offsets IH];
    intros widths ks sig Hks Hlen; [simpl in Hlen; lia|].
  simpl in Hks. unfold offset_of at 1 in Hks. simpl.
  destruct (num_mul_int o n) as [x|e]; simpl in *; [|discriminate].
  destruct (py_int x) as [k|e]; simpl in *; [|discriminate].
  destruct (mapM (offset_of n) offsets) as [ks'|e] eqn:Hks';
    simpl in *; [|discriminate].
  destruct widths as [|w widths]; simpl in *; [reflexivity|].
  apply (IH widths ks'); [reflexivity|lia].
Qed.

(** With integer widths and offsets that have an integer,
    [time_domain_impulse] raises [ValueError] for a negative size,
    [IndexError] when a width is missing, and returns otherwise. *)
Theorem time_domain_impulse_outcome (n : Z) (g : gen_args) (d : dtype)
    (offsets : list pynum) (widths ks : list Z) :
  as_lists g = (offsets, map PInt widths) ->
  mapM (offset_of n) offsets = Ok ks ->
  time_domain_impulse n g d
  = if n <? 0 then Raise ValueError
    else if (length widths <? length offsets)%nat then Raise IndexError
    else Ok (paint (zip ks widths) (replicate (Z.to_nat n) czero)).
Proof.
  intros Hg Hks. destruct (n <? 0) eqn:En.
  - unfold time_domain_impulse, np_zeros. now rewrite Hg, En.
  - destruct (length widths <? length offsets)%nat eqn:El.
    + apply Nat.ltb_lt in El.
      unfold time_domain_impulse, np_zeros. rewrite Hg, En. simpl.
      now apply impulse_loop_short with (ks := ks).
    + apply Nat.ltb_ge in El.
      apply time_domain_impulse_paint with (offsets := offsets);
        auto; lia.
Qed.

(** In Python's own terms, for offsets and widths of any sign: sample
    [t] is one exactly when it lies in one of the slices
    [sig[k : k + width]], [k] being [int(offset*n)], and zero otherwise. *)
Theorem time_domain_impulse_slices (n : Z) (g : gen_args) (d : dtype)
    (offsets : list pynum) (widths ks : list Z) :
  0 <= n ->
  as_lists g = (offsets, map PInt widths) ->
  (length offsets <= length widths)%nat ->
  mapM (offset_of n) offsets = Ok ks ->
  exists sig,
    time_domain_impulse n g d = Ok sig /\
    length sig = Z.to_nat n /\
    forall t, 0 <= t < n ->
      sig !! Z.to_nat t
      = Some (if existsb (fun kw => in_slice n (fst kw) (fst kw + snd kw) t)
                         (zip ks widths)
              then cone else czero).
Proof.
  intros Hn Hg Hlen Hks.
  exists (paint (zip ks widths) (replicate (Z.to_nat n) czero)).
  split; [now apply time_domain_impulse_paint with (offsets := offsets)|].
  split; [now rewrite length_paint, length_replicate|].
  intros t Ht. rewrite lookup_paint, length_replicate.
  rewrite lookup_replicate_2 by lia. simpl.
  now rewrite !Z2Nat.id by lia.
Qed.

End ImpulseOutcome.

(** A width is missing for the second impulse. *)
Lemma time_domain_impulse_outcome_witness :
  time_domain_impulse 10
    (Lists [PFloat (lit 2 10); PFloat (lit 5 10)] [PInt 3]) complex64
  = (Raise IndexError : result (list sym)).
Proof.
  apply (time_domain_impulse_outcome 10
           (Lists [PFloat (lit 2 10); PFloat (lit 5 10)] [PInt 3]) complex64
           [PFloat (lit 2 10); PFloat (lit 5 10)] [3] [2; 5]);
    reflexivity.
Defined.

(** A slice counted from the end, [sig[-2:-1]], and one cut at the end,
    [sig[9:12]]. *)
Lemma time_domain_impulse_slices_witness :
  exists sig : list sym,
    time_domain_impulse 10
      (Lists [PFloat (lit (-25) 100); PFloat (lit 9 10)] [PInt 1; PInt 3])
      complex64 = Ok sig /\
    length sig = 10%nat /\
    forall t, 0 <= t < 10 ->
      sig !! Z.to_nat t
      = Some (if existsb (fun kw => in_slice 10 (fst kw) (fst kw + snd kw) t)
                         [(-2, 1); (9, 3)]
              then SOne else SZero).
Proof.
  assert (H0 : 0 <= 10) by lia.
  assert (Hl : (2 <= 2)%nat) by lia.
  exact (time_domain_impulse_slices (C := sym) 10
           (Lists [PFloat (lit (-25) 100); PFloat (lit 9 10)] [PInt 1; PInt 3])
           complex64 [PFloat (lit (-25) 100); PFloat (lit 9 10)] [1; 3]
           [-2; 9] H0 eq_refl Hl eq_refl).
Defined.

(** ** The order of the impulses *)

Lemma mapM_ok_Forall {A B} (f : A -> result B) (l : list A) :
  (exists l', mapM f l = Ok l') <-> Forall (fun a => exists b, f a = Ok b) l.
Proof.
  induction l as [|a l IH]; simpl.
  - split; [constructor|eauto].
  - split.
    + intros [l' Hl]. destruct (f a) as [b|] eqn:Hb; simpl in Hl; [|discriminate].
      destruct (mapM f l) as [bs|]; simpl in Hl; [|discriminate].
      constructor; [eauto|]. apply IH. eauto.
    + intros Hall. inversion Hall as [|? ? [b Hb] Hrest]; subst.
      apply IH in Hrest as [bs Hbs]. rewrite Hb, Hbs. simpl. eauto.
Qed.

Lemma existsb_Permutation {A} (f : A -> bool) (l1 l2 : list A) :
  Permutation l1 l2 -> existsb f l1 = existsb f l2.
Proof.
  induction 1 as [|x l1 l2 _ IH|x y l|l1 l2 l3 _ IH1 _ IH2]; simpl.
  - reflexivity.
  - now rewrite IH.
  - destruct (f x), (f y); reflexivity.
  - congruence.
Qed.

Lemma zip_kw_of (n : Z) (pairs : list (pynum * Z)) (ks : list Z) :
  mapM (offset_of n) (map fst pairs) = Ok ks ->
  zip ks (map snd pairs) = map (kw_of n) pairs.
Proof.
  revert ks. induction pairs as [|p pairs IH]; simpl; intros ks.
  - now intros [= <-].
  - unfold kw_of at 1.
    destruct (offset_of n (fst p)) as [k|]; simpl; [|discriminate].
    destruct (mapM (offset_of n) (map fst pairs)) as [ks'|]; simpl;
      [|discriminate].
    intros [= <-]. simpl. f_equal. now apply IH.
Qed.

Section ImpulseOrder.
Context {C : Type} `{SampleOps C}.

Lemma impulse_loop_ok_offsets (n : Z) (offsets widths : list pynum)
    (sig sig' : list C) :
  impulse_loop n offsets widths sig = Ok sig' ->
  exists ks, mapM (offset_of n) offsets = Ok ks.
Proof.
  revert widths sig. induction offsets as [|o offsets IH]; simpl;
    intros widths sig.
  - eauto.
  - unfold offset_of at 1.
    destruct (num_mul_int o n) as [x|e]; simpl; [|discriminate].
    destruct (py_int x) as [k|e]; simpl; [|discriminate].
    destruct widths as [|[w|w] widths]; try discriminate.
    intros Hl. apply IH in Hl as [ks ->]. simpl. eauto.
Qed.

(** What [time_domain_impulse] returns for impulses given as pairs. *)
Lemma time_domain_impulse_pairs (n : Z) (d : dtype)
    (pairs : list (pynum * Z)) (sig : list C) :
  time_domain_impulse n (impulses pairs) d = Ok sig ->
  0 <= n /\
  Forall (fun o => exists k, offset_of n o = Ok k) (map fst pairs) /\
  sig = paint (map (kw_of n) pairs) (replicate (Z.to_nat n) czero).
Proof.
  intros Hr. pose proof Hr as Hr'.
  unfold time_domain_impulse, impulses, as_lists in Hr'.
  destruct (np_zeros n) as [z|] eqn:Hz; simpl in Hr'; [|discriminate].
  apply length_np_zeros in Hz as [_ Hn].
  apply impulse_loop_ok_offsets in Hr' as [ks Hks].
  split; [exact Hn|]. split; [apply mapM_ok_Forall; eauto|].
  rewrite (time_domain_impulse_paint n (impulses pairs) d (map fst pairs)
             (map snd pairs) ks Hn eq_refl) in Hr.
  - injection Hr as <-. now rewrite (zip_kw_of n pairs ks Hks).
  - now rewrite !length_map.
  - exact Hks.
Qed.

(** The impulses can be given in any order: when [time_domain_impulse]
    returns for a list of impulses it returns the same samples for every
    rearrangement of the list. *)
Theorem time_domain_impulse_any_order (n : Z) (d : dtype)
    (pairs1 pairs2 : list (pynum * Z)) (sig : list C) :
  Permutation pairs1 pairs2 ->
  time_domain_impulse n (impulses pairs1) d = Ok sig ->
  time_domain_impulse n (impulses pairs2) d = Ok sig.
Proof.
  intros Hp Hr.
  apply time_domain_impulse_pairs in Hr as (Hn & Hall & ->).
  assert (Hall2 : Forall (fun o => exists k, offset_of n o = Ok k)
                         (map fst pairs2)).
  { eapply Permutation_Forall; [|exact Hall].
    now apply Permutation_map. }
  apply mapM_ok_Forall in Hall2 as [ks2 Hks2].
  rewrite (time_domain_impulse_paint n (impulses pairs2) d (map fst pairs2)
             (map snd pairs2) ks2 Hn eq_refl);
    [|now rewrite !length_map|exact Hks2].
  f_equal. rewrite (zip_kw_of n pairs2 ks2 Hks2).
  apply list_eq. intros j. rewrite !lookup_paint.
  destruct (replicate (Z.to_nat n) czero !! j) as [x|]; [|reflexivity].
  simpl. f_equal.
  now rewrite (existsb_Permutation _ _ _ (Permutation_map (kw_of n) Hp)).
Qed.

End ImpulseOrder.

(** Two overlapping impulses, given in one order and in the other. *)
Lemma time_domain_impulse_any_order_witness :
  time_domain_impulse 10
    (impulses [(PFloat (lit 3 10), 3); (PFloat (lit 2 10), 3)]) complex64
  = Ok [SZero; SZero; SOne; SOne; SOne; SOne; SZero; SZero; SZero; SZero].
Proof.
  apply (time_domain_impulse_any_order 10 complex64
           [(PFloat (lit 2 10), 3); (PFloat (lit 3 10), 3)]
           [(PFloat (lit 3 10), 3); (PFloat (lit 2 10), 3)]).
  - apply perm_swap.
  - reflexivity.
Defined.

(** ** The tone generator on every input *)



Section SinusoidOutcome.
Context {C : Type} `{SampleOps C}.



End SinusoidOutcome.


(** ** Explicit output names *)

Lemma lacks_app (c : ascii) (a b : string) :
  lacks c (a +:+ b) = lacks c a && lacks c b.
Proof.
  induction a as [|x a IH]; [reflexivity|].
  rewrite app_cons. simpl. rewrite IH. apply andb_assoc.
Qed.

Lemma rfind_from_lacks (c : ascii) (s : string) (i : nat)
    (last : option nat) :
  lacks c s = true -> rfind_from c s i last = last.
Proof.
  revert i last. induction s as [|a s IH]; simpl; intros i last Hl;
    [reflexivity|].
  apply andb_prop in Hl as [Ha Hs]. rewrite IH by assumption.
  apply negb_true_iff in Ha. now rewrite Ha.
Qed.

Lemma rfind_last (c : ascii) (a b : string) :
  lacks c b = true -> rfind c (a +:+ String c b) = Some (String.length a).
Proof.
  intros Hb. unfold rfind. rewrite rfind_from_app. simpl.
  rewrite rfind_from_lacks by assumption. now rewrite Ascii.eqb_refl.
Qed.

Lemma substring_app_take (a b : string) :
  substring 0 (String.length a) (a +:+ b) = a.
Proof.
  induction a as [|x a IH]; [now destruct b|].
  rewrite app_cons. simpl. now rewrite IH.
Qed.

(** The part before the extension of [stem.ext] is [stem]. *)
Lemma splitext_root_stem (stem ext : string) :
  lacks sep stem = true -> lacks sep ext = true ->
  lacks extsep ext = true ->
  has_non_dot stem 0 (String.length stem) = true ->
  splitext_root (stem +:+ "." +:+ ext) = stem.
Proof.
  intros Hs He Hd Hn. unfold splitext_root.
  change (stem +:+ "." +:+ ext) with (stem +:+ String extsep ext).
  rewrite (rfind_last extsep stem ext Hd).
  assert (Hsep : rfind sep (stem +:+ String extsep ext) = None).
  { unfold rfind. apply rfind_from_lacks.
    rewrite lacks_app, Hs. simpl. now rewrite He. }
  rewrite Hsep. simpl.
  unfold has_non_dot in *. rewrite Nat.sub_0_r in *.
  rewrite substring_app_take, substring_all in *.
  rewrite Hn. unfold str_take. apply substring_app_take.
Qed.

(** An explicit file name [stem.ext] without directories is kept, the
    base is [stem] and the log file is [stem.log], whatever the default
    base; so the name [stem.dump] gives what the default base [stem]
    gives, and for the name [stem.log] the log file is the data file. *)
Theorem create_output_file_names_explicit (stem ext default_base : string) :
  lacks sep stem = true -> lacks sep ext = true ->
  lacks extsep ext = true ->
  has_non_dot stem 0 (String.length stem) = true ->
  _create_output_file_names (Some (stem +:+ "." +:+ ext)) default_base
  = (stem, stem +:+ ".log", stem +:+ "." +:+ ext) /\
  _create_output_file_names (Some (stem +:+ ".dump")) default_base
  = _create_output_file_names None stem.
Proof.
  intros Hs He Hd Hn. unfold _create_output_file_names. split.
  - now rewrite splitext_root_stem.
  - change (stem +:+ ".dump") with (stem +:+ "." +:+ "dump").
    now rewrite (splitext_root_stem stem "dump" Hs eq_refl eq_refl Hn).
Qed.

(** The name of the repository's tests. *)
Lemma create_output_file_names_explicit_witness :
  _create_output_file_names (Some "time_domain_impulse.dump") "ignored"
  = ("time_domain_impulse", "time_domain_impulse.log",
     "time_domain_impulse.dump") /\
  _create_output_file_names (Some "time_domain_impulse.dump") "ignored"
  = _create_output_file_names None "time_domain_impulse".
Proof.
  exact (create_output_file_names_explicit "time_domain_impulse" "dump"
           "ignored" eq_refl eq_refl eq_refl eq_refl).
Defined.

(** ** What the generator front end does to the world *)

Section FrontEndEffects.
Context {C : Type} `{SampleOps C} `{Env C}.

(** A backend that is neither ["matlab"] nor ["python"]: once the
    arguments are formatted the function returns [None] and has done
    nothing. *)
Theorem generate_unknown_backend (backend domain_name : string) (n_bins : Z)
    (args : list pynum) (header_template output_file_name : option string)
    (output_dir : string) (n_pol : Z) (d : dtype) (w : world) :
  backend <> "matlab" -> backend <> "python" ->
  _generate_test_vector backend domain_name n_bins args header_template
    output_file_name output_dir n_pol d w
  = (w, strs <- mapM fmt3 args ;; Ok None).
Proof.
  intros Hm Hp. apply String.eqb_neq in Hm, Hp.
  unfold _generate_test_vector, bind, lift.
  destruct (mapM fmt3 args) as [strs|e]; [|reflexivity].
  rewrite format_output_base_template, Hm, Hp. reflexivity.
Qed.

(** A domain that is neither ["time"] nor ["freq"]: under either backend
    the function raises [KeyError], and no command has been run and no
    file written. *)
Theorem generate_unknown_domain (backend domain_name : string) (n_bins : Z)
    (args : list pynum) (strs : list string)
    (header_template output_file_name : option string)
    (output_dir : string) (n_pol : Z) (d : dtype) (w : world) :
  backend = "matlab" \/ backend = "python" ->
  domain_name <> "time" -> domain_name <> "freq" ->
  mapM fmt3 args = Ok strs ->
  _generate_test_vector backend domain_name n_bins args header_template
    output_file_name output_dir n_pol d w
  = (w, Raise KeyError).
Proof.
  intros Hb Ht Hf Hfmt. apply String.eqb_neq in Ht, Hf.
  unfold _generate_test_vector, bind, lift.
  rewrite Hfmt, format_output_base_template.
  destruct Hb as [-> | ->].
  - change (String.eqb "matlab" "matlab") with true. cbv iota.
    unfold matlab_domain_name_map. now rewrite Ht, Hf.
  - change (String.eqb "python" "matlab") with false.
    change (String.eqb "python" "python") with true. cbv iota.
    unfold func_lookup. now rewrite Ht, Hf.
Qed.

End FrontEndEffects.

(** A misspelt backend. *)
Lemma generate_unknown_backend_witness :
  _generate_test_vector "Python" "time" 1000 [PFloat (lit 1 10); PInt 1]
    None None "./" 2 complex64 empty_world
  = (empty_world, Ok None).
Proof.
  apply (generate_unknown_backend "Python" "time" 1000
           [PFloat (lit 1 10); PInt 1] None None "./" 2 complex64
           empty_world); discriminate.
Defined.

(** A domain given by the name of its function. *)
Lemma generate_unknown_domain_witness :
  _generate_test_vector "matlab" "complex_sinusoid" 1000
    [PFloat (lit 1 10); PInt 1] None None "./" 2 complex64 empty_world
  = (empty_world, Raise KeyError).
Proof.
  apply (generate_unknown_domain "matlab" "complex_sinusoid" 1000
           [PFloat (lit 1 10); PInt 1] ["0.100"; "1.000"] None None "./" 2
           complex64 empty_world).
  - now left.
  - discriminate.
  - discriminate.
  - reflexivity.
Defined.

(** ** The external generator *)

Section ExternalGenerator.
Context {C : Type} `{SampleOps C} `{Env C}.

Lemma matlab_domain_name_map_plain (domain_name handler : string) :
  matlab_domain_name_map domain_name = Ok handler -> plain handler = true.
Proof.
  unfold matlab_domain_name_map.
  destruct (String.eqb domain_name "time"); [now intros [= <-]|].
  destruct (String.eqb domain_name "freq"); [now intros [= <-]|].
  discriminate.
Qed.

(** The matlab backend with the default file name.  The log file
    beside the data file is opened first, and when it cannot be opened
    the error is raised and nothing is run.  Then the tool
    [build_dir/generate_test_vector] is started once, on the handler of
    the domain, the size, the arguments at three decimals joined by
    commas, the dtype tag, the polarization count, the header, the data
    file name, the output directory and a final [1].  An exit status
    other than 0 raises [RuntimeError]; with status 0 the data file of
    the output directory is handed to the file format to load. *)
Theorem generate_matlab_runs_tool (domain_name : string) (n_bins : Z)
    (args : list pynum) (header_template : option string)
    (output_dir : string) (n_pol : Z) (d : dtype) (w : world)
    (strs : list string) (handler : string) (argv : list string) :
  mapM fmt3 args = Ok strs ->
  matlab_domain_name_map domain_name = Ok handler ->
  let base := canonical_base handler n_bins strs n_pol d "matlab" in
  let header := match header_template with
                | Some h => h
                | None => path_join config_dir [header_file_path]
                end in
  let cmd :=
    path_join build_dir ["generate_test_vector"] +:+ " " +:+ handler +:+ " "
    +:+ str_of_Z n_bins +:+ " " +:+ join "," strs +:+ " "
    +:+ matlab_dtype_lookup d +:+ " " +:+ str_of_Z n_pol +:+ " " +:+ header
    +:+ " " +:+ (base +:+ ".dump") +:+ " " +:+ output_dir +:+ " 1" in
  let log := path_join output_dir [base +:+ ".log"] in
  let out := path_join output_dir [base +:+ ".dump"] in
  shlex_split cmd = Ok argv ->
  _generate_test_vector "matlab" domain_name n_bins args header_template
    None output_dir n_pol d w
  = match open_write log "" w with
    | (w1, Raise e) => (w1, Raise e)
    | (w1, Ok _) =>
        match process argv (Some log) w1 with
        | (w2, Raise e) => (w2, Raise e)
        | (w2, Ok returncode) =>
            let w3 := World (dirs w2) (files w2) (trace w2 ++ [cmd]) in
            if returncode =? 0
            then match load_data out w3 with
                 | (w4, Ok loaded) => (w4, Ok (Some (DadaFile out loaded)))
                 | (w4, Raise e) => (w4, Raise e)
                 end
            else (w3, Raise RuntimeError)
        end
    end.
Proof.
  intros Hfmt Hh base header cmd log out Hsplit.
  unfold _generate_test_vector, bind, lift, ret.
  rewrite Hfmt, format_output_base_template.
  change (String.eqb "matlab" "matlab") with true. cbv iota.
  rewrite Hh.
  rewrite format_func_name.
  2:{ apply plain_canonical_rest; [eauto using plain_mapM_fmt3|reflexivity]. }
  cbn [_create_output_file_names].
  unfold _run_cmd. fold header.
  fold (canonical_base handler n_bins strs n_pol d "matlab").
  fold base. fold cmd. rewrite Hsplit. fold log. fold out.
  destruct (open_write log "" w) as [w1 [[]|e]]; [|reflexivity].
  destruct (process argv (Some log) w1) as [w2 [returncode|e]];
    [|reflexivity].
  destruct (returncode =? 0); [|reflexivity].
  now destruct (load_data out _) as [w4 [loaded|e]].
Qed.

End ExternalGenerator.

(** In a world with the output directory, a tool that exits with status
    0 and writes nothing: the log file is there, the command is on
    record, and loading the data file fails. *)
Lemma generate_matlab_runs_tool_witness :
  _generate_test_vector "matlab" "time" 1000 [PFloat (lit 1 10); PInt 1]
    None None "out" 2 complex64 (World {[ "out" ]} ∅ [])
  = (World {[ "out" ]}
       {[ "out/time_domain_impulse.1000.0.100-1.000.2.single.matlab.log"
          := "" ]}
       ["build/generate_test_vector time_domain_impulse 1000 0.100,1.000 single 2 config/default_header.json time_domain_impulse.1000.0.100-1.000.2.single.matlab.dump out 1"],
     Raise FileNotFoundError).
Proof.
  exact (generate_matlab_runs_tool "time" 1000 [PFloat (lit 1 10); PInt 1]
           None "out" 2 complex64 (World {[ "out" ]} ∅ [])
           ["0.100"; "1.000"] "time_domain_impulse" _
           eq_refl eq_refl eq_refl).
Defined.

(** Without the output directory the log file cannot be opened: the
    call raises [FileNotFoundError] and the tool is not run. *)
Example generate_matlab_missing_directory :
  _generate_test_vector "matlab" "time" 1000 [PFloat (lit 1 10); PInt 1]
    None None "out" 2 complex64 empty_world
  = (empty_world, Raise FileNotFoundError).
Proof. vm_compute. reflexivity. Qed.

(** ** The channelize and synthesize functions of the matlab backend *)

Section MatlabStages.
Context {C : Type} `{SampleOps C} `{Env C}.

(** The matlab [_channelize] on its four arguments, the oversampling
    factor a string.  The log file is opened first, and when it cannot
    be opened the error is raised and nothing is run.  Then the tool
    [build_dir/channelize] is started once, the filter path and the
    output file name written without a space between them.  An exit
    status other than 0 raises [RuntimeError]; with status 0 the path
    of the output file is returned when [channelize] was given a file
    name, and [TypeError] is raised when it was not. *)
Theorem channelize_matlab_runs_tool (output_file_name : option string)
    (output_dir : string) (input_data_file_path channels fir_filter_path : pyval)
    (os_factor_str : string) (w : world) (argv : list string) :
  let names :=
    _create_output_file_names output_file_name
      ("channelize." +:+ py_str channels +:+ "."
       +:+ join "-" (split_on "/"%char os_factor_str)) in
  let cmd :=
    path_join build_dir ["channelize"] +:+ " "
    +:+ py_str input_data_file_path +:+ " " +:+ py_str channels +:+ " "
    +:+ os_factor_str +:+ " " +:+ py_str fir_filter_path +:+ snd names
    +:+ " " +:+ output_dir +:+ " 1" in
  let log := path_join output_dir [snd (fst names)] in
  shlex_split cmd = Ok argv ->
  call_stage (ChannelizeMatlab output_file_name output_dir)
    [input_data_file_path; channels; VStr os_factor_str; fir_filter_path] w
  = match open_write log "" w with
    | (w1, Raise e) => (w1, Raise e)
    | (w1, Ok _) =>
        match process argv (Some log) w1 with
        | (w2, Raise e) => (w2, Raise e)
        | (w2, Ok returncode) =>
            (World (dirs w2) (files w2) (trace w2 ++ [cmd]),
             if returncode =? 0
             then match output_file_name with
                  | Some name => Ok (VStr (path_join output_dir [name]))
                  | None => Raise TypeError
                  end
             else Raise RuntimeError)
        end
    end.
Proof.
  intros names cmd log Hsplit.
  unfold call_stage, _channelize_matlab, bind, lift, _run_cmd.
  destruct output_file_name as [name|];
    cbn [_create_output_file_names fst snd py_str] in *;
    match goal with
    | |- context [shlex_split ?c] => change c with cmd
    end;
    rewrite Hsplit;
    match goal with
    | |- context [process argv (Some ?l)] => change l with log
    end;
    destruct (open_write log "" w) as [w1 [[]|e]]; try reflexivity;
    destruct (process argv (Some log) w1) as [w2 [returncode|e]];
    try reflexivity;
    destruct (returncode =? 0); reflexivity.
Qed.

(** Without a file name the function returned by [channelize] never
    returns a path: whatever it is called on, it raises. *)
Theorem channelize_default_never_returns (output_dir : string)
    (args : list pyval) (w : world) :
  channelize None output_dir "matlab" = Ok (ChannelizeMatlab None output_dir)
  /\ exists e, snd (call_stage (ChannelizeMatlab None output_dir) args w)
               = Raise e.
Proof.
  split; [reflexivity|].
  destruct args as [|a [|b [|c [|x [|y args]]]]]; try (eexists; reflexivity).
  unfold call_stage, _channelize_matlab, bind, lift.
  destruct c; try (eexists; reflexivity).
  cbn [_create_output_file_names]. unfold _run_cmd.
  destruct (shlex_split _) as [argv|e]; [|eexists; reflexivity].
  destruct (open_write _ "" w) as [w1 [[]|e]]; [|eexists; reflexivity].
  destruct (process argv _ _) as [w2 [rc|e]]; [|eexists; reflexivity].
  destruct (rc =? 0); eexists; reflexivity.
Qed.

(** No function returned by [synthesize] ever returns: [synthesize]
    raises [UnboundLocalError] for a backend other than ["matlab"] and
    ["python"], and the function it returns for these two raises on
    every call, without running anything. *)
Theorem synthesize_never_returns (output_file_name : option string)
    (output_dir backend : string) (args : list pyval) (w : world) :
  match synthesize output_file_name output_dir backend with
  | Ok f => exists e, call_stage f args w = (w, Raise e)
  | Raise e => e = UnboundLocalError
  end.
Proof.
  unfold synthesize.
  destruct (String.eqb backend "matlab").
  - destruct args as [|a [|b [|c args]]]; eexists; reflexivity.
  - destruct (String.eqb backend "python"); [|reflexivity].
    destruct args as [|a [|b args]]; eexists; reflexivity.
Qed.

End MatlabStages.

(** The documented call [channelize(...)(path, 8, "8/7", fir)] in a
    world with the output directory and a tool that exits with status
    0. *)
Lemma channelize_matlab_runs_tool_witness :
  call_stage (ChannelizeMatlab (Some "channelized.dump") "out")
    [VStr "in.dump"; VNum (PInt 8); VStr "8/7"; VStr "fir.mat"]
    (World {[ "out" ]} ∅ [])
  = (World {[ "out" ]} {[ "out/channelized.log" := "" ]}
       ["build/channelize in.dump 8 8/7 fir.matchannelized.dump out 1"],
     Ok (VStr "out/channelized.dump")).
Proof.
  exact (channelize_matlab_runs_tool (Some "channelized.dump") "out"
           (VStr "in.dump") (VNum (PInt 8)) (VStr "fir.mat") "8/7"
           (World {[ "out" ]} ∅ []) _ eq_refl).
Defined.

(** Without the output directory the log file cannot be opened: the
    call raises [FileNotFoundError] and the tool is not run. *)
Example channelize_matlab_missing_directory :
  call_stage (ChannelizeMatlab (Some "channelized.dump") "out")
    [VStr "in.dump"; VNum (PInt 8); VStr "8/7"; VStr "fir.mat"] empty_world
  = (empty_world, Raise FileNotFoundError).
Proof. vm_compute. reflexivity. Qed.

(** ** The key of the cache *)

Section CacheKey.
Context {C : Type} `{SampleOps C} `{Env C}.

(** In the time domain the sub-directory is [o-<offset>_w-<width>], the
    two values at three decimals; other entries of [params] play no
    part. *)
Theorem cache_key_time (params : gmap string pynum) (offset width : pynum)
    (so sw : string) :
  params !! "offset" = Some offset -> params !! "width" = Some width ->
  fmt3 offset = Ok so -> fmt3 width = Ok sw ->
  cache_key "time" params = Ok ("o-" +:+ so +:+ "_w-" +:+ sw).
Proof.
  intros Ho Hw Hso Hsw. unfold cache_key.
  assert (Ho' : kwargs_of params "offset" = Some (VNum offset))
    by (unfold kwargs_of; now rewrite Ho).
  assert (Hw' : kwargs_of params "width" = Some (VNum width))
    by (unfold kwargs_of; now rewrite Hw).
  revert Ho' Hw'. generalize (kwargs_of params). intros kw Ho' Hw'.
  assert (Ro : render kw "offset:.3f" = Ok so)
    by (unfold render; cbn; rewrite Ho'; exact Hso).
  assert (Rw : render kw "width:.3f" = Ok sw)
    by (unfold render; cbn; rewrite Hw'; exact Hsw).
  cbn. cbv [String.append]. rewrite Ro, Rw. cbn.
  now rewrite str_app_nil_r.
Qed.

(** In the frequency domain the sub-directory is
    [f-<frequency>_b-<bin_offset>_p-<phase>]: the bin offset comes before
    the phase, while the order of the positional arguments has the phase
    first. *)
Theorem cache_key_freq (params : gmap string pynum)
    (frequency phase bin_offset : pynum) (sf sp sb : string) :
  params !! "frequency" = Some frequency ->
  params !! "phase" = Some phase ->
  params !! "bin_offset" = Some bin_offset ->
  fmt3 frequency = Ok sf -> fmt3 phase = Ok sp -> fmt3 bin_offset = Ok sb ->
  cache_key "freq" params
  = Ok ("f-" +:+ sf +:+ "_b-" +:+ sb +:+ "_p-" +:+ sp) /\
  domain_param_order "freq" = Ok ["frequency"; "phase"; "bin_offset"].
Proof.
  intros Hf Hp Hb Hsf Hsp Hsb. split; [|reflexivity].
  unfold cache_key.
  assert (Hf' : kwargs_of params "frequency" = Some (VNum frequency))
    by (unfold kwargs_of; now rewrite Hf).
  assert (Hp' : kwargs_of params "phase" = Some (VNum phase))
    by (unfold kwargs_of; now rewrite Hp).
  assert (Hb' : kwargs_of params "bin_offset" = Some (VNum bin_offset))
    by (unfold kwargs_of; now rewrite Hb).
  revert Hf' Hp' Hb'. generalize (kwargs_of params). intros kw Hf' Hp' Hb'.
  assert (Rf : render kw "frequency:.3f" = Ok sf)
    by (unfold render; cbn; rewrite Hf'; exact Hsf).
  assert (Rp : render kw "phase:.3f" = Ok sp)
    by (unfold render; cbn; rewrite Hp'; exact Hsp).
  assert (Rb : render kw "bin_offset:.3f" = Ok sb)
    by (unfold render; cbn; rewrite Hb'; exact Hsb).
  cbn. cbv [String.append]. rewrite Rf, Rp, Rb. cbn.
  now rewrite str_app_nil_r.
Qed.

(** The lookup of [data_gen/util.py] never changes the world. *)
Theorem find_existing_test_data_reads_only (base_dir domain_name : string)
    (params : params_arg) (w : world) :
  fst (find_existing_test_data base_dir domain_name params w) = w.
Proof.
  unfold find_existing_test_data, bind, lift.
  destruct (sub_dir_format_map domain_name) as [fmt|]; [|reflexivity].
  destruct (match params with PDict m => _ | PSeq l => _ end) as [m|];
    [|reflexivity].
  destruct (py_format fmt (kwargs_of m)) as [sub|]; [|reflexivity].
  now destruct (path_exists _ w).
Qed.

Lemma dict_of_seq_zip (names : list string) (l : list pynum) :
  dict_of_seq names l
  = if (length l <? length names)%nat then Raise IndexError
    else Ok (list_to_map (zip names l)).
Proof.
  revert l. induction names as [|name names IH]; intros l; [reflexivity|].
  destruct l as [|v l]; [reflexivity|]. simpl. rewrite IH.
  change (S (length l) <? S (length names))%nat
    with (length l <? length names)%nat.
  now destruct (length l <? length names)%nat.
Qed.

(** Parameters given as a sequence are the dictionary that pairs them
    with the names of the domain in order, what follows the last name
    being dropped; a sequence that is too short raises [IndexError]. *)
Theorem find_existing_test_data_sequence (base_dir domain_name : string)
    (names : list string) (l : list pynum) (w : world) :
  domain_param_order domain_name = Ok names ->
  find_existing_test_data base_dir domain_name (PSeq l) w
  = if (length l <? length names)%nat then (w, Raise IndexError)
    else find_existing_test_data base_dir domain_name
           (PDict (list_to_map (zip names l))) w.
Proof.
  intros Hn. unfold find_existing_test_data, bind, lift.
  assert (Hfmt : exists fmt, sub_dir_format_map domain_name = Ok fmt).
  { unfold domain_param_order, sub_dir_format_map in *.
    destruct (String.eqb domain_name "time"); [eauto|].
    destruct (String.eqb domain_name "freq"); [eauto|discriminate]. }
  destruct Hfmt as [fmt ->]. rewrite Hn. cbn [rbind].
  rewrite dict_of_seq_zip.
  now destruct (length l <? length names)%nat.
Qed.

(** Requests with the same sub-directory are one request for the cache:
    the lookup answers the same for both, and the constructor leaves the
    same world and raises for the one exactly when it raises for the
    other. *)
Theorem same_key_same_entry (base_dir domain_name : string)
    (params1 params2 : gmap string pynum) (w : world) :
  cache_key domain_name params1 = cache_key domain_name params2 ->
  find_existing_test_data base_dir domain_name (PDict params1) w
  = find_existing_test_data base_dir domain_name (PDict params2) w /\
  fst (new_producer base_dir domain_name params1 w)
  = fst (new_producer base_dir domain_name params2 w) /\
  forall e, snd (new_producer base_dir domain_name params1 w) = Raise e <->
            snd (new_producer base_dir domain_name params2 w) = Raise e.
Proof.
  unfold cache_key. intros Hk.
  unfold find_existing_test_data, new_producer, data_vector_producer,
    bind, lift.
  destruct (sub_dir_format_map domain_name) as [fmt|]; [|now cbn].
  cbn [rbind] in Hk. rewrite Hk.
  destruct (py_format fmt (kwargs_of params2)) as [sub|]; [|now cbn].
  destruct (path_exists (path_join base_dir [domain_name; sub]) w) eqn:He.
  - destruct (read_file (path_join sub [meta_data_file_name]) w) as [text|];
      cbn; [destruct (json_load text); cbn|]; repeat split; auto.
  - unfold makedirs. rewrite He.
    destruct (existsb _ _); cbn; repeat split; auto; discriminate.
Qed.

End CacheKey.

(** The time-domain parameters of a request. *)
Lemma cache_key_time_witness :
  cache_key "time" time_params = Ok "o-0.100_w-1.000".
Proof.
  exact (cache_key_time time_params (PFloat (lit 1 10)) (PFloat (lit 1 1))
           "0.100" "1.000" eq_refl eq_refl eq_refl eq_refl).
Defined.

(** Frequency 0.1, phase pi/4, bin offset 0.1. *)
Lemma cache_key_freq_witness :
  cache_key "freq"
    {[ "frequency" := PFloat (lit 1 10);
       "phase" := PFloat (fdiv np_pi (binary_normalize prec emax 4 0 false));
       "bin_offset" := PFloat (lit 2 10) ]}
  = Ok "f-0.100_b-0.200_p-0.785" /\
  domain_param_order "freq" = Ok ["frequency"; "phase"; "bin_offset"].
Proof.
  exact (cache_key_freq
           {[ "frequency" := PFloat (lit 1 10);
              "phase" :=
                PFloat (fdiv np_pi (binary_normalize prec emax 4 0 false));
              "bin_offset" := PFloat (lit 2 10) ]}
           (PFloat (lit 1 10))
           (PFloat (fdiv np_pi (binary_normalize prec emax 4 0 false)))
           (PFloat (lit 2 10)) "0.100" "0.785" "0.200"
           eq_refl eq_refl eq_refl eq_refl eq_refl eq_refl).
Defined.

(** The tuple [(0.1, 1)] of the time domain. *)
Lemma find_existing_test_data_sequence_witness :
  find_existing_test_data "data" "time" (PSeq [PFloat (lit 1 10); PInt 1])
    cached_world
  = find_existing_test_data "data" "time"
      (PDict (list_to_map (zip ["offset"; "width"]
                               [PFloat (lit 1 10); PInt 1])))
      cached_world.
Proof.
  exact (find_existing_test_data_sequence "data" "time" ["offset"; "width"]
           [PFloat (lit 1 10); PInt 1] cached_world eq_refl).
Defined.

(** Offsets 0.1 and 0.1004 are one entry of the cache. *)
Lemma same_key_same_entry_witness :
  find_existing_test_data "data" "time" (PDict time_params) cached_world
  = find_existing_test_data "data" "time"
      (PDict {[ "offset" := PFloat (lit 1004 10000);
                "width" := PFloat (lit 1 1) ]}) cached_world.
Proof.
  refine (proj1 (same_key_same_entry (C := sym) "data" "time" time_params
                   {[ "offset" := PFloat (lit 1004 10000);
                      "width" := PFloat (lit 1 1) ]} cached_world _)).
  vm_compute. reflexivity.
Defined.

(** ** Directories *)

Lemma list_ascii_of_string_app (a b : string) :
  list_ascii_of_string (a +:+ b)
  = (list_ascii_of_string a ++ list_ascii_of_string b)%list.
Proof.
  induction a as [|x a IH]; [reflexivity|].
  rewrite app_cons. simpl. now rewrite IH.
Qed.

Lemma rstrip_sep_snoc (l : list ascii) :
  rstrip_sep (l ++ [sep]) = rstrip_sep l.
Proof.
  induction l as [|a l IH]; [reflexivity|]. simpl. now rewrite IH.
Qed.

Lemma rstrip_sep_keeps (s : string) :
  ends_with sep s = false ->
  rstrip_sep (list_ascii_of_string s) = list_ascii_of_string s.
Proof.
  induction s as [|a s IH]; [reflexivity|]. intros He.
  destruct s as [|b s].
  - simpl in *. now rewrite He.
  - change (ends_with sep (String a (String b s)))
      with (ends_with sep (String b s)) in He.
    change (list_ascii_of_string (String a (String b s)))
      with (a :: list_ascii_of_string (String b s)).
    cbn [rstrip_sep]. rewrite (IH He). reflexivity.
Qed.

Lemma str_take_snoc (a b : string) (c : ascii) :
  str_take (S (String.length a)) (a +:+ String c b) = a +:+ String c "".
Proof.
  unfold str_take. induction a as [|x a IH].
  - simpl. now destruct b.
  - rewrite !app_cons. cbn [String.length]. simpl. now rewrite IH.
Qed.

(** [os.path.dirname] undoes one step of [os.path.join]. *)
Lemma dirname_sep (d name : string) :
  d <> "" -> ends_with sep d = false -> lacks sep name = true ->
  dirname (d +:+ "/" +:+ name) = d.
Proof.
  intros Hd He Hn. unfold dirname.
  change (d +:+ "/" +:+ name) with (d +:+ String sep name).
  rewrite (rfind_last sep d name Hn). cbn zeta.
  rewrite str_take_snoc, list_ascii_of_string_app.
  change (list_ascii_of_string (String sep "")) with [sep].
  rewrite rstrip_sep_snoc, (rstrip_sep_keeps d He).
  destruct d as [|x d]; [contradiction|].
  change (list_ascii_of_string (String x d))
    with (x :: list_ascii_of_string d).
  cbn [string_of_list_ascii]. now rewrite string_of_list_ascii_of_string.
Qed.

Lemma lacks_starts_with (c : ascii) (s : string) :
  lacks c s = true -> starts_with c s = false.
Proof.
  destruct s as [|a s]; [reflexivity|]. simpl. intros Hl.
  apply andb_prop in Hl as [Ha _]. now apply negb_true_iff in Ha.
Qed.

Lemma lacks_ends_with (c : ascii) (s : string) :
  lacks c s = true -> ends_with c s = false.
Proof.
  induction s as [|a s IH]; [reflexivity|]. intros Hl.
  simpl in Hl. apply andb_prop in Hl as [Ha Hs].
  destruct s as [|b s].
  - simpl. now apply negb_true_iff in Ha.
  - exact (IH Hs).
Qed.

Lemma ends_with_app (c : ascii) (a b : string) :
  b <> "" -> ends_with c (a +:+ b) = ends_with c b.
Proof.
  intros Hb. induction a as [|x a IH]; [reflexivity|].
  rewrite app_cons. destruct (a +:+ b) eqn:E.
  - destruct a; [simpl in E; contradiction|discriminate].
  - exact IH.
Qed.

Lemma app_nonempty_r (a b : string) : b <> "" -> a +:+ b <> "".
Proof.
  intros Hb E. destruct a; [exact (Hb E)|discriminate].
Qed.

(** One step of [os.path.join] with a component that is not empty and
    holds no separator: the path ends in the component, and its
    directory is what it was joined to. *)
Lemma join2_component (d name : string) :
  ends_with sep d = false -> name <> "" -> lacks sep name = true ->
  join2 d name <> "" /\ ends_with sep (join2 d name) = false /\
  dirname (join2 d name) = d.
Proof.
  intros He Hne Hl. unfold join2.
  rewrite (lacks_starts_with _ _ Hl), He, orb_false_r.
  destruct (String.eqb d "") eqn:Ed.
  - apply String.eqb_eq in Ed as ->. simpl. repeat split.
    + exact Hne.
    + now apply lacks_ends_with.
    + unfold dirname, rfind. now rewrite rfind_from_lacks.
  - apply String.eqb_neq in Ed. repeat split.
    + apply app_nonempty_r. discriminate.
    + rewrite ends_with_app by discriminate.
      change ("/" +:+ name) with (String sep name).
      destruct name as [|a name]; [contradiction|].
      change (ends_with sep (String sep (String a name)))
        with (ends_with sep (String a name)).
      now apply lacks_ends_with.
    + now apply dirname_sep.
Qed.

Lemma path_join_components (d : string) (names : list string) :
  ends_with sep d = false ->
  Forall (fun name => name <> "" /\ lacks sep name = true) names ->
  ends_with sep (path_join d names) = false /\
  updir (path_join d names) (length names) = d.
Proof.
  intros Hd Hn. revert d Hd. induction Hn as [|name names [Hne Hl] _ IH];
    intros d Hd; [now split|].
  destruct (join2_component d name Hd Hne Hl) as (_ & He & Hdir).
  destruct (IH (join2 d name) He) as [He' Hup].
  split; [exact He'|].
  change (path_join d (name :: names)) with (path_join (join2 d name) names).
  assert (Hsnoc : forall p n, updir p (S n) = dirname (updir p n)).
  { intros p n. revert p. induction n as [|n IHn]; intros p; [reflexivity|].
    change (updir p (S (S n))) with (updir (dirname p) (S n)).
    now rewrite IHn. }
  cbn [length]. now rewrite Hsnoc, Hup.
Qed.

(** Going up as many levels as components were joined to a directory
    gives the directory back, when it has no trailing separator and the
    components are not empty and hold no separator. *)
Theorem updir_path_join (d : string) (names : list string) :
  ends_with sep d = false ->
  Forall (fun name => name <> "" /\ lacks sep name = true) names ->
  updir (path_join d names) (length names) = d.
Proof.
  intros Hd Hn. exact (proj2 (path_join_components d names Hd Hn)).
Qed.

(** Two levels up from a cache directory. *)
Lemma updir_path_join_witness :
  updir "data/time/o-0.100_w-1.000" 2 = "data".
Proof.
  refine (updir_path_join "data" ["time"; "o-0.100_w-1.000"] eq_refl _).
  repeat constructor; discriminate.
Defined.

(** ** The constructor *)

Section Constructor.
Context {C : Type} `{SampleOps C} `{Env C}.





End Constructor.


(** The domain directory is a regular file: the constructor raises and
    the world is as it was. *)
Example constructor_under_a_file :
  new_producer "data" "time" time_params (World ∅ {[ "data/time" := "" ]} [])
  = (World ∅ {[ "data/time" := "" ]} [], Raise NotADirectoryError).
Proof. vm_compute. reflexivity. Qed.


(** ** The arguments of the generator call *)

(** The loop that inserts the parameters of the request puts them, in
    their order, after the first element of the list it works on, and
    makes them the whole list when that list is empty: after the first
    element of the tuple has been removed, [(n_pol, n_bins, dtype)] with
    parameters [offset, width] gives [n_bins, offset, width, dtype]. *)
Theorem insert_params_after_first {A : Type} (vs : list A) :
  (forall i l,
     insert_params i vs l = (take (S i) l ++ vs ++ drop (S i) l)%list) /\
  (forall x rest, insert_params 0 vs (x :: rest) = (x :: vs ++ rest)%list) /\
  insert_params 0 vs [] = vs.
Proof.
  assert (Hg : forall i l,
             insert_params i vs l
             = (take (S i) l ++ vs ++ drop (S i) l)%list).
  { induction vs as [|v vs IH]; intros i l.
    - cbn [insert_params]. now rewrite app_nil_l, take_drop.
    - cbn [insert_params]. rewrite IH. unfold py_insert.
      destruct (decide (S i <= length l)%nat) as [Hle|Hgt].
      + assert (Hlen : length (take (S i) l) = S i)
          by (rewrite length_take; lia).
        rewrite (take_app_ge (take (S i) l)) by lia.
        rewrite (drop_app_ge (take (S i) l)) by lia.
        rewrite Hlen.
        replace (S (S i) - S i)%nat with 1%nat by lia.
        cbn [take drop]. rewrite take_0, drop_0, <- !app_assoc.
        reflexivity.
      + rewrite (take_ge l (S i)), (drop_ge l (S i)) by lia.
        rewrite (take_ge (l ++ [v])%list) by (rewrite length_app; simpl; lia).
        rewrite (drop_ge (l ++ [v])%list) by (rewrite length_app; simpl; lia).
        rewrite <- !app_assoc. reflexivity. }
  split; [exact Hg|]. split.
  - intros x rest. rewrite Hg. cbn [take drop]. now rewrite take_0, drop_0.
  - rewrite Hg. cbn. now rewrite app_nil_r.
Qed.
